(** * The prospect pipeline of milientscraper, embedded in Rocq

    The development follows the Python sources:
    - [fast_processor.py]: the per-company decision loop
      [process_companies_fast], its checkpoints and its final summary;
    - [gemini_classifier.py]: [analyze_team_members];
    - [website_scraper.py]: [scrape_company_pages] and
      [extract_business_description].

    Python values are modelled by a small sum type, dictionaries by
    association lists that keep insertion order (the order matters for
    [str] of a dictionary), collaborators (network, language model) by
    functions that thread an abstract world and may raise. *)

From Stdlib Require Import ZArith List String Ascii Bool Lia Floats.
From Stdlib Require Import DecimalString.
Import ListNotations.
Open Scope string_scope.

(** ** Python values and strings *)

Module Py.

(** The values a CSV cell or a result field holds: [None] (missing
    column), the float [nan] pandas puts in a blank cell, text, and
    integers. *)
Inductive value : Type :=
| PNone
| PNaN
| PStr (s : string)
| PInt (z : Z).

(** [bool(v)]: [None], [''] and [0] are false, [nan] is true. *)
Definition truthy (v : value) : bool :=
  match v with
  | PNone => false
  | PNaN => true
  | PStr s => negb (s =? "")
  | PInt z => negb (z =? 0)%Z
  end.

(** [v == s] for a string literal [s]. *)
Definition eq_str (v : value) (s : string) : bool :=
  match v with
  | PStr t => t =? s
  | _ => false
  end.

(** Truth value of an [Optional[str]]. *)
Definition truthy_opt (o : option string) : bool :=
  match o with
  | Some s => negb (s =? "")
  | None => false
  end.

(** An exception object (a subclass of [Exception]) with its message. *)
Inductive exn : Type := Exception (msg : string).

(** The result of a call: it returns or it raises. *)
Inductive result (A : Type) : Type :=
| Return (a : A)
| Raise (e : exn).
Arguments Return {A} a.
Arguments Raise {A} e.

(** *** Strings: one [ascii] per character, code points below 256 *)

(** [str.isspace] on one character. *)
Definition is_space (c : ascii) : bool :=
  let n := nat_of_ascii c in
  (((9 <=? n) && (n <=? 13)) || ((28 <=? n) && (n <=? 32))
   || (n =? 133) || (n =? 160))%nat.

Fixpoint lstrip (s : string) : string :=
  match s with
  | String c s' => if is_space c then lstrip s' else s
  | EmptyString => EmptyString
  end.

Fixpoint rev_string (s acc : string) : string :=
  match s with
  | String c s' => rev_string s' (String c acc)
  | EmptyString => acc
  end.

Definition rstrip (s : string) : string :=
  rev_string (lstrip (rev_string s "")) "".

(** [s.strip()] *)
Definition strip (s : string) : string := rstrip (lstrip s).

(** [sub in s] *)
Fixpoint contains (sub s : string) : bool :=
  prefix sub s
  || match s with
     | String _ s' => contains sub s'
     | EmptyString => false
     end.

(** [s.split(sep)] for a one-character separator. *)
Fixpoint split_on (sep : ascii) (s : string) (cur : string) : list string :=
  match s with
  | EmptyString => [rev_string cur ""]
  | String c s' =>
      if Ascii.eqb c sep then rev_string cur "" :: split_on sep s' ""
      else split_on sep s' (String c cur)
  end.

Definition split (sep : ascii) (s : string) : list string :=
  split_on sep s "".

(** [sep.join(l)] *)
Fixpoint join (sep : string) (l : list string) : string :=
  match l with
  | [] => ""
  | [x] => x
  | x :: rest => x ++ sep ++ join sep rest
  end.

(** [s[:n]] for [n >= 0]. *)
Definition take (n : nat) (s : string) : string := substring 0 n s.

(** *** [repr] *)

Definition hex_digit (n : nat) : ascii :=
  ascii_of_nat (if n <? 10 then 48 + n else 87 + n)%nat.

Definition quote : ascii := "'"%char.
Definition dquote : ascii := ascii_of_nat 34.
Definition backslash : ascii := "\"%char.

(** One character inside [repr] of a string delimited by [q]. *)
Definition repr_char (q c : ascii) : string :=
  let n := nat_of_ascii c in
  if Ascii.eqb c q || Ascii.eqb c backslash then String backslash (String c "")
  else if (n =? 9)%nat then String backslash "t"
  else if (n =? 10)%nat then String backslash "n"
  else if (n =? 13)%nat then String backslash "r"
  else if ((n <? 32) || (n =? 127) || ((128 <=? n) && (n <=? 160)) || (n =? 173))%nat
  then String backslash
         (String "x" (String (hex_digit (n / 16)) (String (hex_digit (n mod 16)) "")))
  else String c "".

Fixpoint repr_chars (q : ascii) (s : string) : string :=
  match s with
  | EmptyString => ""
  | String c s' => repr_char q c ++ repr_chars q s'
  end.

(** [repr(s)]: single quotes, unless [s] has a single quote and no
    double quote. *)
Definition repr_str (s : string) : string :=
  let q :=
    if contains (String quote "") s && negb (contains (String dquote "") s)
    then dquote else quote in
  String q (repr_chars q s ++ String q "").

Definition repr (v : value) : string :=
  match v with
  | PNone => "None"
  | PNaN => "nan"
  | PStr s => repr_str s
  | PInt z => NilZero.string_of_int (Z.to_int z)
  end.

(** *** Dictionaries with string keys, in insertion order *)

Definition dict : Type := list (string * value).

(** [d.get(k, default)] *)
Fixpoint get (d : dict) (k : string) (default : value) : value :=
  match d with
  | [] => default
  | (k', v) :: d' => if k' =? k then v else get d' k default
  end.

(** [d[k] = v]: an existing key keeps its place, a new one goes last. *)
Fixpoint set (d : dict) (k : string) (v : value) : dict :=
  match d with
  | [] => [(k, v)]
  | (k', v') :: d' =>
      if k' =? k then (k', v) :: d' else (k', v') :: set d' k v
  end.

(** [d.update(u)] *)
Definition update (d u : dict) : dict :=
  fold_left (fun acc kv => set acc (fst kv) (snd kv)) u d.

Definition repr_item (kv : string * value) : string :=
  repr_str (fst kv) ++ ": " ++ repr (snd kv).

(** [str(d)] *)
Definition str_dict (d : dict) : string :=
  "{" ++ join ", " (map repr_item d) ++ "}".

(** [l[a:b]] for integers [a], [b] of either sign. *)
Definition clamp (n x : Z) : Z :=
  if (x <? 0)%Z then Z.max (x + n) 0 else Z.min x n.

Definition slice {A} (l : list A) (a b : Z) : list A :=
  let n := Z.of_nat (List.length l) in
  let a' := clamp n a in
  let b' := clamp n b in
  firstn (Z.to_nat (b' - a')) (skipn (Z.to_nat a') l).

End Py.

(** ** [website_scraper.py]: what a scrape returns *)

Module Scraper.

(** The dictionary [scrape_single_page] returns for a page it could
    read; [soup] is the parsed document, kept as its markup. *)
Record Page : Type := {
  url : string;
  text : string;
  soup : string;
  title : option string
}.

(** The [results] dictionary of [scrape_company_pages]. *)
Record Pages : Type := {
  homepage : option Page;
  about_page : option Page;
  team_page : option Page;
  contact_page : option Page;
  employee_count : option Z;
  business_description : option string;
  error : option string
}.

(** [p['text'] if p else ''] *)
Definition text_or_empty (p : option Page) : string :=
  match p with
  | Some pg => text pg
  | None => ""
  end.

(** [bool(p)]: a page dictionary is never empty. *)
Definition present (p : option Page) : bool :=
  match p with
  | Some _ => true
  | None => false
  end.

(** [extract_business_description] *)
Definition extract_business_description (text : string) : option string :=
  if negb (negb (text =? "")) then None
  else
    let lines := Py.split (ascii_of_nat 10) text in
    let meaningful_lines :=
      filter (fun line => (50 <? String.length (Py.strip line))%nat) lines in
    match meaningful_lines with
    | [] => None
    | _ =>
      let description := Py.join " " (firstn 3 meaningful_lines) in
      if (500 <? String.length description)%nat
      then Some (Py.take 500 description ++ "...")
      else Some description
    end.

Definition empty_results : Pages :=
  {| homepage := None; about_page := None; team_page := None;
     contact_page := None; employee_count := None;
     business_description := None; error := None |}.

Definition set_error (msg : string) (r : Pages) : Pages :=
  {| homepage := homepage r; about_page := about_page r;
     team_page := team_page r; contact_page := contact_page r;
     employee_count := employee_count r;
     business_description := business_description r; error := Some msg |}.

Definition set_homepage (p : Page) (r : Pages) : Pages :=
  {| homepage := Some p; about_page := about_page r;
     team_page := team_page r; contact_page := contact_page r;
     employee_count := employee_count r;
     business_description := extract_business_description (text p);
     error := error r |}.

Definition set_about_page (p : Page) (r : Pages) : Pages :=
  {| homepage := homepage r; about_page := Some p;
     team_page := team_page r; contact_page := contact_page r;
     employee_count := employee_count r;
     business_description := business_description r; error := error r |}.

Definition set_team_page (p : Page) (r : Pages) : Pages :=
  {| homepage := homepage r; about_page := about_page r;
     team_page := Some p; contact_page := contact_page r;
     employee_count := employee_count r;
     business_description := business_description r; error := error r |}.

Definition set_contact_page (p : Page) (r : Pages) : Pages :=
  {| homepage := homepage r; about_page := about_page r;
     team_page := team_page r; contact_page := Some p;
     employee_count := employee_count r;
     business_description := business_description r; error := error r |}.

Definition message (e : Py.exn) : string :=
  match e with Py.Exception msg => msg end.

Section ScrapeCompanyPages.

Context {World : Type}.

(** [scrape_single_page]: its body is one [try] whose handler
    returns [None], so it returns a page or [None] and never raises. *)
Variable scrape_single_page : Py.value -> World -> option Page * World.

(** The three link finders, functions of the parsed homepage and the
    base URL; they may raise. *)
Variable find_about_page : string -> Py.value -> Py.result (option string).
Variable find_team_page : string -> Py.value -> Py.result (option string).
Variable find_contact_page : string -> Py.value -> Py.result (option string).

(** [if u: d = scrape_single_page(u); if d: results[...] = d] *)
Definition follow (found : option string) (store : Page -> Pages -> Pages)
           (results : Pages) (w : World) : Pages * World :=
  if Py.truthy_opt found then
    match scrape_single_page (Py.PStr (match found with Some u => u | None => "" end)) w with
    | (Some data, w') => (store data results, w')
    | (None, w') => (results, w')
    end
  else (results, w).

(** [scrape_company_pages]: the handler of its [try] turns every
    exception into an [error] entry of the results built so far. *)
Definition scrape_company_pages (website_url : Py.value) (w : World)
  : Py.result Pages * World :=
  let results := empty_results in
  match scrape_single_page website_url w with
  | (None, w) => (Py.Return (set_error "Could not access homepage" results), w)
  | (Some homepage_data, w) =>
    let results := set_homepage homepage_data results in
    match find_about_page (soup homepage_data) website_url with
    | Py.Raise e => (Py.Return (set_error ("Scraping error: " ++ message e) results), w)
    | Py.Return about_url =>
      let '(results, w) := follow about_url set_about_page results w in
      match find_team_page (soup homepage_data) website_url with
      | Py.Raise e =>
        (Py.Return (set_error ("Scraping error: " ++ message e) results), w)
      | Py.Return team_url =>
        let '(results, w) := follow team_url set_team_page results w in
        match find_contact_page (soup homepage_data) website_url with
        | Py.Raise e =>
          (Py.Return (set_error ("Scraping error: " ++ message e) results), w)
        | Py.Return contact_url =>
          let '(results, w) := follow contact_url set_contact_page results w in
          (Py.Return results, w)
        end
      end
    end
  end.

End ScrapeCompanyPages.

End Scraper.

(** ** [gemini_classifier.py] *)

Module Gemini.

(** The dictionary [classify_relevance_and_contact] returns. *)
Record RelevanceAndContact : Type := {
  is_relevant : bool;
  confidence : float;
  reasoning : string;
  phone_number : option string;
  street_address : option string
}.

(** The dictionary [analyze_team_members] returns (its [confidence]
    key is [count_confidence] here). *)
Record TeamMemberCount : Type := {
  employee_count : Z;
  count_confidence : float;
  names_found : list string
}.

(** The [company_data] dictionary handed to either call; [None] is a
    key that is absent (or holds [None]). *)
Record company_data : Type := {
  company_name : option Py.value;
  homepage_text : option string;
  about_text : option string;
  team_text : option string;
  contact_text : option string
}.

Definition newline : string := String (ascii_of_nat 10) "".

Definition team_header : string := "=== TEAM PAGE ===" ++ newline ++ newline.
Definition about_header : string :=
  newline ++ newline ++ "=== ABOUT PAGE ===" ++ newline ++ newline.

Definition get_text (o : option string) : string :=
  match o with
  | Some s => s
  | None => ""
  end.

Section Analyzer.

Context {World : Type}.

(** [chain.invoke({"content": c})]: the prompt, the model call and
    the output parser; it may raise. *)
Variable invoke : string -> World -> Py.result TeamMemberCount * World.

(** [analyze_team_members]; the second component lists the contents
    sent to the model. *)
Definition analyze_team_members (data : company_data) (w : World)
  : Py.result TeamMemberCount * list string * World :=
  let team_content := "" in
  let team_content :=
    if Py.truthy_opt (team_text data)
    then team_content ++ team_header ++ get_text (team_text data)
    else team_content in
  let team_content :=
    if Py.truthy_opt (about_text data)
    then team_content ++ about_header ++ get_text (about_text data)
    else team_content in
  if negb (negb (Py.strip team_content =? "")) then
    (Py.Return {| employee_count := 0; count_confidence := 0%float;
                  names_found := [] |}, [], w)
  else
    let '(r, w') := invoke team_content w in
    (r, [team_content], w').

End Analyzer.

(** The headers of [classify_relevance_and_contact]. *)
Definition relevance_about_header : string :=
  "=== ABOUT PAGE ===" ++ newline ++ newline.
Definition relevance_contact_header : string :=
  newline ++ newline ++ "=== CONTACT PAGE ===" ++ newline ++ newline.
Definition relevance_homepage_header : string :=
  newline ++ newline ++ "=== HOMEPAGE ===" ++ newline ++ newline.

(** [company_data.get('company_name', '')] *)
Definition name_or_empty (data : company_data) : Py.value :=
  match company_name data with
  | Some v => v
  | None => Py.PStr ""
  end.

Section Classifier.

Context {World : Type}.

(** [chain.invoke({"company_name": n, "website_content": c})] with the
    [RelevanceAndContact] parser; it may raise. *)
Variable invoke :
  Py.value -> string -> World -> Py.result RelevanceAndContact * World.

(** The content [classify_relevance_and_contact] selects (lines 85-99),
    before [strip]. *)
Definition website_content (data : company_data) : string :=
  let website_content := "" in
  let has_about := Py.truthy_opt (about_text data) in
  let has_contact := Py.truthy_opt (contact_text data) in
  let website_content :=
    if has_about
    then website_content ++ relevance_about_header ++ get_text (about_text data)
    else website_content in
  let website_content :=
    if has_contact
    then website_content ++ relevance_contact_header ++ get_text (contact_text data)
    else website_content in
  if (negb has_about || negb has_contact) && Py.truthy_opt (homepage_text data)
  then website_content ++ relevance_homepage_header ++ get_text (homepage_text data)
  else website_content.

(** [classify_relevance_and_contact]: the fields of the parsed answer
    are copied into the dictionary it returns. *)
Definition classify_relevance_and_contact (data : company_data) (w : World)
  : Py.result RelevanceAndContact * World :=
  match invoke (name_or_empty data) (Py.strip (website_content data)) w with
  | (Py.Return result, w') =>
    (Py.Return {| is_relevant := is_relevant result;
                  confidence := confidence result;
                  reasoning := reasoning result;
                  phone_number := phone_number result;
                  street_address := street_address result |}, w')
  | (Py.Raise e, w') => (Py.Raise e, w')
  end.

End Classifier.

(** The headers of [count_team_members]. *)
Definition count_team_header : string := "TEAM PAGE:" ++ newline.
Definition count_about_header : string :=
  newline ++ newline ++ "ABOUT PAGE:" ++ newline.

Section Counter.

Context {World : Type}.

(** [chain.invoke({"content": c})] with the [TeamAnalysis] parser. *)
Variable invoke : string -> World -> Py.result TeamMemberCount * World.

(** [count_team_members]; the second component lists the contents sent
    to the model. *)
Definition count_team_members (team_page_content about_page_content : option string)
           (w : World) : Py.result TeamMemberCount * list string * World :=
  let combined_content := "" in
  let combined_content :=
    if Py.truthy_opt team_page_content
    then combined_content ++ count_team_header ++ get_text team_page_content
    else combined_content in
  let combined_content :=
    if Py.truthy_opt about_page_content
    then combined_content ++ count_about_header ++ get_text about_page_content
    else combined_content in
  if negb (negb (Py.strip combined_content =? "")) then
    (Py.Return {| employee_count := 0; count_confidence := 0%float;
                  names_found := [] |}, [], w)
  else
    let '(r, w') := invoke combined_content w in
    (r, [combined_content], w').

End Counter.

End Gemini.

(** ** [fast_processor.py]: the decision loop *)

Module Fast.

Import Py.

(** The branch an iteration leaves through, named after the message it
    prints: [Disqualified] for the "DQ" lines, [ManualReview] for the
    "manual review" lines, [Approved] for "APPROVED". *)
Inductive Reason : Type :=
| NoWebsite | ScrapeFailed | Irrelevant | TeamTooSmall
| NoTeamData | TeamParseFailed | ClassifierError | AnalyzerError.

Inductive Disposition : Type :=
| Disqualified (r : Reason)
| ManualReview (r : Reason)
| Approved.

(** What an iteration does that can be observed from outside: the
    calls to the collaborators and the lines it prints. *)
Inductive Event : Type :=
| CallScrape (website_url : value)
| CallClassify (data : Gemini.company_data)
| Relevance (is_relevant : bool) (confidence : float)
| ClassifierFailed (e : exn)
| CallAnalyze (data : Gemini.company_data)
| TeamCount (team_count : Z)
| AnalyzerFailed (e : exn)
| Decided (d : Disposition)
| Owner (owner : value).

(** How the body of the loop is left before the checkpoint code:
    through [continue], by reaching the end of the second [try], or
    with an exception nobody caught. *)
Inductive control : Type :=
| Continue
| Next
| Raised (e : exn).

(** The four fields every "DQ" branch writes. *)
Definition dq_update : dict :=
  [ ("Lifecycle Stage", PStr "other");
    ("Company owner", PStr "no owner");
    ("Sector", PStr "n/a");
    ("Type", PStr "other") ].

(** The base [result] built from the row. *)
Definition base_result (company : dict) (company_name website_url : value) : dict :=
  [ ("Record ID", get company "Record ID" PNone);
    ("Company name", company_name);
    ("Type", get company "Type" PNone);
    ("Sector", get company "Sector" PNone);
    ("Company Domain Name", get company "Company Domain Name" PNone);
    ("Number of Employees", get company "Number of Employees" (PInt 11));
    ("City", get company "City" PNone);
    ("Country", get company "Country" PNone);
    ("Company owner", get company "Company owner" PNone);
    ("Create Date", get company "Create Date" PNone);
    ("Website URL", website_url);
    ("Phone Number", get company "Phone Number" PNone);
    ("Last Activity Date", get company "Last Activity Date" PNone);
    ("Country/Region", get company "Country/Region" PNone);
    ("Industry", get company "Industry" PNone);
    ("Lifecycle Stage", get company "Lifecycle Stage" PNone);
    ("Street Address", get company "Street Address" PNone) ].

(** The two [if relevance_analysis[...]] overlays of the contact data. *)
Definition add_contact (relevance_analysis : Gemini.RelevanceAndContact)
           (result : dict) : dict :=
  let result :=
    if truthy_opt (Gemini.phone_number relevance_analysis)
    then set result "Phone Number"
           (PStr (Gemini.get_text (Gemini.phone_number relevance_analysis)))
    else result in
  if truthy_opt (Gemini.street_address relevance_analysis)
  then set result "Street Address"
         (PStr (Gemini.get_text (Gemini.street_address relevance_analysis)))
  else result.

(** The dictionary handed to [classify_relevance_and_contact]
    (lines 106-111). *)
Definition relevance_input (company_name : value)
           (scraping_results : Scraper.Pages) : Gemini.company_data :=
  {| Gemini.company_name := Some company_name;
     Gemini.homepage_text :=
       Some (Scraper.text_or_empty (Scraper.homepage scraping_results));
     Gemini.about_text :=
       Some (Scraper.text_or_empty (Scraper.about_page scraping_results));
     Gemini.team_text := None;
     Gemini.contact_text :=
       Some (Scraper.text_or_empty (Scraper.contact_page scraping_results)) |}.

(** The dictionary handed to [analyze_team_members] (lines 159-162). *)
Definition team_input (scraping_results : Scraper.Pages) : Gemini.company_data :=
  {| Gemini.company_name := None;
     Gemini.homepage_text := None;
     Gemini.about_text :=
       Some (Scraper.text_or_empty (Scraper.about_page scraping_results));
     Gemini.team_text :=
       Some (Scraper.text_or_empty (Scraper.team_page scraping_results));
     Gemini.contact_text := None |}.

(** The owner tiers of the approval branch. *)
Definition tier_owner (team_count : Z) : string :=
  if (team_count >=? 100)%Z then "Matt"
  else if (team_count >=? 16)%Z then "Ellinor"
  else "James".

Section Pipeline.

Context {World : Type}.

(** The collaborators: each sees the world, may change it, and
    returns or raises. *)
Variable scrape_company_pages :
  value -> World -> result Scraper.Pages * World.
Variable classify_relevance_and_contact :
  Gemini.company_data -> World -> result Gemini.RelevanceAndContact * World.
Variable analyze_team_members :
  Gemini.company_data -> World -> result Gemini.TeamMemberCount * World.

(** The state of a run: the [results] list, the checkpoint files
    written (the count in the file name and the rows), the trace of
    events, and the world. *)
Record State : Type := {
  results : list dict;
  checkpoints : list (nat * list dict);
  trace : list Event;
  world : World
}.

Definition append (r : dict) (st : State) : State :=
  {| results := (results st ++ [r])%list; checkpoints := checkpoints st;
     trace := trace st; world := world st |}.

Definition emit (evs : list Event) (st : State) : State :=
  {| results := results st; checkpoints := checkpoints st;
     trace := (trace st ++ evs)%list; world := world st |}.

Definition with_world (w : World) (st : State) : State :=
  {| results := results st; checkpoints := checkpoints st;
     trace := trace st; world := w |}.

Definition save_checkpoint (processed_count : nat) (st : State) : State :=
  {| results := results st;
     checkpoints := (checkpoints st ++ [(processed_count, results st)])%list;
     trace := trace st; world := world st |}.

(** Lines 172-227: the team size rules, once the analyzer answered. *)
Definition apply_team_rules (relevance_analysis : Gemini.RelevanceAndContact)
           (team_count : Z) (result : dict) (st : State) : State :=
  if ((1 <=? team_count) && (team_count <? 5))%Z then
    let result := update result [ ("Lifecycle Stage", PStr "other");
                                  ("Company owner", PStr "no owner");
                                  ("Sector", PStr "n/a");
                                  ("Type", PStr "other");
                                  ("Number of Employees", PInt team_count) ] in
    emit [Decided (Disqualified TeamTooSmall)] (append result st)
  else if (team_count =? 0)%Z then
    let owner := get result "Company owner" (PStr "James") in
    let result := add_contact relevance_analysis result in
    emit [Decided (ManualReview TeamParseFailed); Owner owner] (append result st)
  else
    let owner := tier_owner team_count in
    let result := update result [ ("Company owner", PStr owner);
                                  ("Number of Employees", PInt team_count) ] in
    let result := add_contact relevance_analysis result in
    emit [Decided Approved; Owner (PStr owner)] (append result st).

(** Lines 41-244: one company, up to the checkpoint code. *)
Definition evaluate (company : dict) (st : State) : control * State :=
  let company_name := get company "Company name" (PStr "Unknown") in
  let website_url := get company "Website URL" (PStr "") in
  let result := base_result company company_name website_url in
  if negb (truthy website_url) then
    let result := update result dq_update in
    (Continue, emit [Decided (Disqualified NoWebsite)] (append result st))
  else
    let st := emit [CallScrape website_url] st in
    match scrape_company_pages website_url (world st) with
    | (Raise e, w) => (Raised e, with_world w st)
    | (Return scraping_results, w) =>
      let st := with_world w st in
      if truthy_opt (Scraper.error scraping_results) then
        let result := update result dq_update in
        (Continue, emit [Decided (Disqualified ScrapeFailed)] (append result st))
      else
        let data := relevance_input company_name scraping_results in
        let st := emit [CallClassify data] st in
        match classify_relevance_and_contact data (world st) with
        | (Raise e, w) =>
          let st := with_world w st in
          (Continue,
           emit [ClassifierFailed e; Decided (ManualReview ClassifierError)]
                (append result st))
        | (Return relevance_analysis, w) =>
          let st := with_world w st in
          let st := emit [Relevance (Gemini.is_relevant relevance_analysis)
                                    (Gemini.confidence relevance_analysis)] st in
          if negb (Gemini.is_relevant relevance_analysis)
             && (0.8 <? Gemini.confidence relevance_analysis)%float then
            let result := update result dq_update in
            (Continue, emit [Decided (Disqualified Irrelevant)] (append result st))
          else
            let has_team_data :=
              Scraper.present (Scraper.team_page scraping_results)
              || Scraper.present (Scraper.about_page scraping_results) in
            if negb has_team_data then
              let owner := get result "Company owner" (PStr "James") in
              let result := add_contact relevance_analysis result in
              (Continue,
               emit [Decided (ManualReview NoTeamData); Owner owner]
                    (append result st))
            else
              let data := team_input scraping_results in
              let st := emit [CallAnalyze data] st in
              match analyze_team_members data (world st) with
              | (Return team_analysis, w) =>
                let st := with_world w st in
                let team_count := Gemini.employee_count team_analysis in
                let st := emit [TeamCount team_count] st in
                (Next, apply_team_rules relevance_analysis team_count result st)
              | (Raise e, w) =>
                let st := with_world w st in
                let owner := get result "Company owner" (PStr "James") in
                let result := add_contact relevance_analysis result in
                (Next,
                 emit [AnalyzerFailed e; Decided (ManualReview AnalyzerError);
                       Owner owner]
                      (append result st))
              end
        end
    end.

(** The whole body of the [for] loop: line 40, the decision, and the
    checkpoint of lines 246-251, which a [continue] skips. *)
Definition iteration (company : dict) (st : State) : result unit * State :=
  let processed_count := List.length (results st) + 1 in
  match evaluate company st with
  | (Continue, st') => (Return tt, st')
  | (Next, st') =>
    if (processed_count mod 10 =? 0)%nat
    then (Return tt, save_checkpoint processed_count st')
    else (Return tt, st')
  | (Raised e, st') => (Raise e, st')
  end.

(** [for idx, company in batch_companies.iterrows()] *)
Fixpoint run (batch_companies : list dict) (st : State) : result unit * State :=
  match batch_companies with
  | [] => (Return tt, st)
  | company :: rest =>
    match iteration company st with
    | (Return _, st') => run rest st'
    | (Raise e, st') => (Raise e, st')
    end
  end.

(** *** The final summary (lines 278-308) *)

Record Summary : Type := {
  total : nat;
  approved : nat;
  dq_no_website : nat;
  dq_broken : nat;
  dq_irrelevant : nat;
  dq_small_team : nat;
  manual_review : nat;
  total_ai_calls : nat;
  team_ai_calls : nat
}.

(** [len([r for r in results if p(r)])] *)
Definition count_if (p : dict -> bool) (rs : list dict) : nat :=
  List.length (filter p rs).

(** [r.get('Lifecycle Stage') == 'other'] *)
Definition stage_is_other (r : dict) : bool :=
  eq_str (get r "Lifecycle Stage" PNone) "other".

Definition summarize (rs : list dict) : Summary :=
  let approved := count_if (fun r => negb (stage_is_other r)) rs in
  {| total := List.length rs;
     approved := approved;
     dq_no_website :=
       count_if (fun r => negb (truthy (get r "Website URL" PNone))) rs;
     dq_broken :=
       count_if (fun r => stage_is_other r
                          && contains "Scraping failed" (str_dict r)) rs;
     dq_irrelevant :=
       count_if (fun r => stage_is_other r
                          && contains "Irrelevant" (str_dict r)) rs;
     dq_small_team :=
       count_if (fun r => stage_is_other r
                          && contains "small" (str_dict r)) rs;
     manual_review := approved;
     total_ai_calls :=
       list_sum (map (fun r => if negb (stage_is_other r)
                                  || contains "Irrelevant" (str_dict r)
                               then 1 else 0) rs);
     team_ai_calls := approved |}.

Definition hubspot_columns : list string :=
  [ "Record ID"; "Company name"; "Type"; "Sector"; "Company Domain Name";
    "Number of Employees"; "City"; "Country"; "Company owner"; "Create Date";
    "Website URL"; "Phone Number"; "Last Activity Date"; "Country/Region";
    "Industry"; "Lifecycle Stage"; "Street Address" ].

(** What a run that reaches its end leaves behind: the two result
    files and the printed statistics. *)
Record Report : Type := {
  full_results : list dict;
  hubspot_import : list dict;
  summary : Summary
}.

Inductive Outcome : Type :=
| ReadFailed
| Finished (report : Report)
| Crashed (e : exn).

(** [process_companies_fast]: [df] is what [pd.read_csv] gave.
    Selecting the HubSpot columns of a frame built from no rows
    raises [KeyError]. *)
Definition process_companies_fast (df : result (list dict))
           (batch_size start_from : Z) (w : World) : Outcome * State :=
  let st0 := {| results := []; checkpoints := []; trace := []; world := w |} in
  match df with
  | Raise _ => (ReadFailed, st0)
  | Return df =>
    let end_index := Z.min (start_from + batch_size) (Z.of_nat (List.length df)) in
    let batch_companies := slice df start_from end_index in
    match run batch_companies st0 with
    | (Raise e, st) => (Crashed e, st)
    | (Return _, st) =>
      match results st with
      | [] => (Crashed (Exception "KeyError"), st)
      | _ =>
        (Finished
           {| full_results := results st;
              hubspot_import :=
                map (fun r => map (fun c => (c, get r c PNaN)) hubspot_columns)
                    (results st);
              summary := summarize (results st) |},
         st)
      end
    end
  end.

(** *** Counting on the trace *)

Definition is_classify (e : Event) : bool :=
  match e with CallClassify _ => true | _ => false end.

Definition is_analyze (e : Event) : bool :=
  match e with CallAnalyze _ => true | _ => false end.

Definition is_scrape (e : Event) : bool :=
  match e with CallScrape _ => true | _ => false end.

Definition classifier_calls (st : State) : nat :=
  List.length (filter is_classify (trace st)).

Definition analyzer_calls (st : State) : nat :=
  List.length (filter is_analyze (trace st)).

(** The step of the five-step sequence (website check, scrape,
    relevance call, team-data check, team analysis) a disposition is
    reached at, and the step a collaborator call belongs to. *)
Definition reason_step (r : Reason) : nat :=
  match r with
  | NoWebsite => 1
  | ScrapeFailed => 2
  | Irrelevant | ClassifierError => 3
  | NoTeamData => 4
  | TeamTooSmall | TeamParseFailed | AnalyzerError => 5
  end.

Definition exit_step (d : Disposition) : nat :=
  match d with
  | Disqualified r | ManualReview r => reason_step r
  | Approved => 5
  end.

Definition call_step (e : Event) : nat :=
  match e with
  | CallScrape _ => 2
  | CallClassify _ => 3
  | CallAnalyze _ => 5
  | _ => 0
  end.

(** A collaborator that returns on every input, in every world. *)
Definition always_returns {A B : Type} (f : A -> World -> result B * World) : Prop :=
  forall a w, exists b w', f a w = (Return b, w').

(** *** One iteration seen from outside *)

(** The dispositions announced in a stretch of the trace. *)
Fixpoint decisions (evs : list Event) : list Disposition :=
  match evs with
  | [] => []
  | Decided d :: rest => d :: decisions rest
  | _ :: rest => decisions rest
  end.

Definition after (company : dict) (st : State) : State :=
  snd (iteration company st).

(** The events, the rows and the checkpoint files one iteration adds. *)
Definition events (company : dict) (st : State) : list Event :=
  skipn (List.length (trace st)) (trace (after company st)).

Definition rows (company : dict) (st : State) : list dict :=
  skipn (List.length (results st)) (results (after company st)).

Definition snapshots (company : dict) (st : State) : list (nat * list dict) :=
  skipn (List.length (checkpoints st)) (checkpoints (after company st)).

Definition verdict (company : dict) (st : State) : list Disposition :=
  decisions (events company st).

End Pipeline.

End Fast.

(** ** Collaborators with fixed answers, for concrete runs *)

Module Scenario.

Import Py.

(** The world of the scenarios counts the collaborator calls made. *)
Definition World : Type := nat.

Definition page (u t : string) : Scraper.Page :=
  {| Scraper.url := u; Scraper.text := t; Scraper.soup := "";
     Scraper.title := None |}.

Definition home_only : Scraper.Pages :=
  Scraper.set_homepage (page "https://acme.example" "Acme Architects")
                       Scraper.empty_results.

Definition home_and_team : Scraper.Pages :=
  Scraper.set_team_page (page "https://acme.example/team" "Ann Lee, Bo Chen, Cy Dow")
                        home_only.

Definition unreachable : Scraper.Pages :=
  Scraper.set_error "Could not access homepage" Scraper.empty_results.

(** A scraper that answers by URL and never raises. *)
Definition scrape (website_url : value) (w : World)
  : result Scraper.Pages * World :=
  if eq_str website_url "https://down.example" then (Return unreachable, S w)
  else if eq_str website_url "https://team.example" then (Return home_and_team, S w)
  else (Return home_only, S w).

(** A scraper that raises. *)
Definition scrape_raising (website_url : value) (w : World)
  : result Scraper.Pages * World :=
  (Raise (Exception "connection reset"), S w).

Definition signal (relevant : bool) (c : float) : Gemini.RelevanceAndContact :=
  {| Gemini.is_relevant := relevant; Gemini.confidence := c;
     Gemini.reasoning := "stub"; Gemini.phone_number := None;
     Gemini.street_address := None |}.

Definition name_is (data : Gemini.company_data) (s : string) : bool :=
  match Gemini.company_name data with
  | Some v => eq_str v s
  | None => false
  end.

(** A classifier that answers by company name. *)
Definition classify (data : Gemini.company_data) (w : World)
  : result Gemini.RelevanceAndContact * World :=
  if name_is data "Bakery" then (Return (signal false 0.95), S w)
  else if name_is data "Unsure" then (Return (signal false 0.8), S w)
  else if name_is data "Broken" then (Raise (Exception "quota exceeded"), S w)
  else (Return (signal true 0.9), S w).

Definition headcount (n : Z) : Gemini.TeamMemberCount :=
  {| Gemini.employee_count := n; Gemini.count_confidence := 0.9;
     Gemini.names_found := [] |}.

(** An analyzer that always counts [n] people. *)
Definition analyze (n : Z) (data : Gemini.company_data) (w : World)
  : result Gemini.TeamMemberCount * World :=
  (Return (headcount n), S w).

(** A model call that always finds seven people. *)
Definition invoke_seven (content : string) (w : World)
  : result Gemini.TeamMemberCount * World :=
  (Return (headcount 7), S w).

Definition start : Fast.State :=
  {| Fast.results := []; Fast.checkpoints := []; Fast.trace := [];
     Fast.world := 0 |}.

Definition row (name website : string) : dict :=
  [ ("Record ID", PInt 1); ("Company name", PStr name);
    ("Website URL", PStr website); ("Lifecycle Stage", PStr "lead") ].

(** A row with an owner already set. *)
Definition owned_row (name website owner : string) : dict :=
  (row name website ++ [("Company owner", PStr owner)])%list.

(** Ten rows without a website. *)
Definition ten_without_website : list dict :=
  repeat (row "Nameless" "") 10.

(** Ten rows that all reach the team analysis. *)
Definition ten_with_team : list dict :=
  repeat (row "Acme" "https://team.example") 10.

(** A relevant company with a homepage only, and an irrelevant one. *)
Definition acme : dict := row "Acme" "https://acme.example".

Definition two_companies : list dict :=
  [acme; row "Bakery" "https://bakery.example"].

(** A page fetch that reads every URL but the one of a site that is
    down, and link finders that find nothing or raise. *)
Definition fetch (url : value) (w : World) : option Scraper.Page * World :=
  if eq_str url "https://down.example" then (None, S w)
  else (Some (page "https://acme.example" "Acme Architects"), S w).

Definition no_link (soup : string) (base_url : value) : result (option string) :=
  Return None.

Definition broken_finder (soup : string) (base_url : value)
  : result (option string) :=
  Raise (Exception "bad markup").

(** A site whose team page is found but has no text. *)
Definition fetch_bare (url : value) (w : World) : option Scraper.Page * World :=
  if eq_str url "https://acme.example/team"
  then (Some (page "https://acme.example/team" ""), S w)
  else (Some (page "https://acme.example" "Acme Architects"), S w).

Definition team_link (soup : string) (base_url : value) : result (option string) :=
  Return (Some "https://acme.example/team").

(** An analyzer that raises. *)
Definition analyze_raising (data : Gemini.company_data) (w : World)
  : result Gemini.TeamMemberCount * World :=
  (Raise (Exception "timeout"), S w).

(** A relevant company whose site has a team page. *)
Definition acme_with_team : dict := row "Acme" "https://team.example".

(** Whitespace-only inputs for the team analyzer. *)
Definition blank_data : Gemini.company_data :=
  {| Gemini.company_name := None; Gemini.homepage_text := None;
     Gemini.about_text := Some " "; Gemini.team_text := Some "   ";
     Gemini.contact_text := None |}.

Definition empty_data : Gemini.company_data :=
  {| Gemini.company_name := None; Gemini.homepage_text := None;
     Gemini.about_text := Some ""; Gemini.team_text := None;
     Gemini.contact_text := None |}.

End Scenario.

(** * Facts *)

(** ** Python strings and dictionaries *)

Module PyFacts.

Import Py.

Example repr_plain : repr (PStr "Acme Ltd") = "'Acme Ltd'".
Proof. reflexivity. Qed.

Example repr_apostrophe : repr_str "it's" = String dquote ("it's" ++ String dquote "").
Proof. reflexivity. Qed.

Example str_dict_small :
  str_dict [("Type", PNone); ("Number of Employees", PInt 11)]
  = "{'Type': None, 'Number of Employees': 11}".
Proof. reflexivity. Qed.

Example strip_small : strip "  a b  " = "a b".
Proof. reflexivity. Qed.

Example threshold_is_strict : (PrimFloat.ltb 0.8 0.8 = false)%float.
Proof. reflexivity. Qed.

Lemma get_set_same (d : dict) (k : string) (v default : value) :
  get (set d k v) k default = v.
Proof.
  induction d as [|[k' v'] d IH]; simpl.
  - now rewrite String.eqb_refl.
  - destruct (k' =? k) eqn:E; simpl; rewrite E; auto.
Qed.

Lemma get_set_other (d : dict) (k k' : string) (v default : value) :
  k <> k' -> get (set d k v) k' default = get d k' default.
Proof.
  intros Hk. induction d as [|[k0 v0] d IH]; simpl.
  - destruct (String.eqb_spec k k'); congruence.
  - destruct (String.eqb_spec k0 k) as [->|Hne]; simpl.
    + destruct (String.eqb_spec k k'); congruence.
    + now rewrite IH.
Qed.

Lemma skipn_exact {A} (l r : list A) : skipn (List.length l) (l ++ r)%list = r.
Proof. induction l as [|a l IH]; simpl; auto. Qed.

Lemma skipn_none {A} (l : list A) : skipn (List.length l) l = [].
Proof. induction l as [|a l IH]; simpl; auto. Qed.

End PyFacts.

(** ** The decision loop *)

Module FastFacts.

Import Py Fast PyFacts.

(** The contact overlay touches two keys only. *)
Lemma add_contact_other (rel : Gemini.RelevanceAndContact) (d : dict)
      (k : string) (default : value) :
  k <> "Phone Number" -> k <> "Street Address" ->
  get (add_contact rel d) k default = get d k default.
Proof.
  intros Hp Ha. unfold add_contact.
  destruct (truthy_opt (Gemini.phone_number rel));
    destruct (truthy_opt (Gemini.street_address rel));
    rewrite ?get_set_other by congruence; reflexivity.
Qed.

Lemma tier_owner_cases (n : Z) :
  ((n < 16)%Z -> tier_owner n = "James")
  /\ ((16 <= n < 100)%Z -> tier_owner n = "Ellinor")
  /\ ((100 <= n)%Z -> tier_owner n = "Matt").
Proof.
  unfold tier_owner.
  destruct (Z.geb_spec n 100); destruct (Z.geb_spec n 16);
    repeat split; intros; try reflexivity; lia.
Qed.

(** Case analysis along the body of the loop, outermost test first. *)
Ltac branch :=
  first
    [ match goal with
      | |- context [if ?b then _ else _] =>
          lazymatch b with
          | Nat.eqb _ _ => fail
          | _ => destruct b eqn:?
          end
      end
    | match goal with
      | |- context [match ?x with pair _ _ => _ end] =>
          destruct x as [[?|?] ?] eqn:?
      end
    | match goal with
      | |- context [if ?b then _ else _] => destruct b eqn:?
      end ].

Ltac tidy :=
  cbn [fst snd results trace checkpoints world emit append with_world
       save_checkpoint];
  repeat rewrite <- app_assoc;
  rewrite ?skipn_exact, ?skipn_none;
  cbn [app decisions].

Ltac paths :=
  unfold verdict, events, rows, snapshots, after, iteration, evaluate,
         apply_team_rules;
  cbn [world emit append with_world];
  repeat (branch; cbn [world emit append with_world negb]);
  tidy.

(** Membership in an explicit list of events. *)
Ltac member H :=
  simpl in H;
  repeat match type of H with
         | _ \/ _ => destruct H as [H|H]
         end;
  try discriminate H; try contradiction.

Section Facts.

Context {World : Type}.
Variable scrape : value -> World -> result Scraper.Pages * World.
Variable classify :
  Gemini.company_data -> World -> result Gemini.RelevanceAndContact * World.
Variable analyze :
  Gemini.company_data -> World -> result Gemini.TeamMemberCount * World.

Local Abbreviation events := (Fast.events scrape classify analyze).
Local Abbreviation rows := (Fast.rows scrape classify analyze).
Local Abbreviation verdict := (Fast.verdict scrape classify analyze).
Local Abbreviation snapshots := (Fast.snapshots scrape classify analyze).
Local Abbreviation iteration := (Fast.iteration scrape classify analyze).
Local Abbreviation run := (Fast.run scrape classify analyze).

(** The team size rules, read off the count the iteration prints
    ("Team count: n"). *)
Lemma logged_count_rules (company : dict) (st : State) (n : Z) :
  In (TeamCount n) (events company st) -> (0 <= n)%Z ->
  exists r, rows company st = [r] /\
    (n = 0%Z -> verdict company st = [ManualReview TeamParseFailed]) /\
    ((1 <= n < 5)%Z ->
       verdict company st = [Disqualified TeamTooSmall]
       /\ get r "Number of Employees" PNone = PInt n) /\
    ((5 <= n)%Z ->
       verdict company st = [Approved]
       /\ get r "Number of Employees" PNone = PInt n
       /\ ((n < 16)%Z -> get r "Company owner" PNone = PStr "James")
       /\ ((16 <= n < 100)%Z -> get r "Company owner" PNone = PStr "Ellinor")
       /\ ((100 <= n)%Z -> get r "Company owner" PNone = PStr "Matt")).
Proof.
  revert n. paths; intros n Hin Hn; member Hin.
  all: injection Hin as <-.
  all: eexists; split; [reflexivity|].
  all: rewrite ?add_contact_other by discriminate.
  all: destruct (tier_owner_cases (Gemini.employee_count a1)) as (HJ & HE & HM).
  all: repeat split; intros; try lia; cbn;
    rewrite ?HJ, ?HE, ?HM by lia; try reflexivity.
Qed.

(** A negative count printed by the iteration goes with an approval. *)
Lemma logged_negative_count (company : dict) (st : State) (n : Z) :
  In (TeamCount n) (events company st) -> (n < 0)%Z ->
  exists r, rows company st = [r]
    /\ verdict company st = [Approved]
    /\ get r "Company owner" PNone = PStr "James"
    /\ get r "Number of Employees" PNone = PInt n.
Proof.
  revert n. paths; intros n Hin Hn; member Hin.
  all: injection Hin as <-; try lia.
  all: eexists; split; [reflexivity|].
  all: rewrite !add_contact_other by discriminate.
  all: destruct (tier_owner_cases (Gemini.employee_count a1)) as (HJ & _).
  all: cbn; rewrite HJ by lia; auto.
Qed.

(** The relevance threshold, read off the line the iteration prints
    ("Relevance: r (confidence: c)"). *)
Lemma logged_relevance_threshold (company : dict) (st : State)
        (relevant : bool) (c : float) :
  In (Relevance relevant c) (events company st) ->
  (relevant = false ->
     (verdict company st = [Disqualified Irrelevant]
      <-> (0.8 <? c)%float = true))
  /\ (relevant = false -> c = 0.8%float ->
        ~ In (Disqualified Irrelevant) (verdict company st))
  /\ (relevant = true ->
        ~ In (Disqualified Irrelevant) (verdict company st)).
Proof.
  revert relevant c. paths; intros relevant c Hin; member Hin.
  all: injection Hin as <- <-.
  all: match goal with
       | H : (negb _ && _)%bool = _ |- _ => revert H
       end.
  all: destruct (Gemini.is_relevant a0); cbn [negb andb]; intros Hc.
  all: repeat split; intros; subst; try discriminate; auto.
  all: try (rewrite Hc in *; discriminate).
  all: try match goal with
           | H : Gemini.confidence _ = _ |- _ => rewrite H in Hc; vm_compute in Hc
           end; try discriminate.
  all: try (intros Hm; member Hm).
Qed.

(** C6: a disqualified company has the four fields Lifecycle Stage,
    Company owner, Sector and Type overwritten together; a company
    kept for manual review or approved keeps the Lifecycle Stage,
    Sector and Type of its input row, and an approved one has the
    owner of its tier. *)
Theorem disposition_frame (company : dict) (st : State) (d : Disposition) :
  In d (verdict company st) ->
  exists r, rows company st = [r] /\
    match d with
    | Disqualified _ =>
        get r "Lifecycle Stage" PNone = PStr "other"
        /\ get r "Company owner" PNone = PStr "no owner"
        /\ get r "Sector" PNone = PStr "n/a"
        /\ get r "Type" PNone = PStr "other"
    | ManualReview _ =>
        get r "Lifecycle Stage" PNone = get company "Lifecycle Stage" PNone
        /\ get r "Sector" PNone = get company "Sector" PNone
        /\ get r "Type" PNone = get company "Type" PNone
    | Approved =>
        get r "Lifecycle Stage" PNone = get company "Lifecycle Stage" PNone
        /\ get r "Sector" PNone = get company "Sector" PNone
        /\ get r "Type" PNone = get company "Type" PNone
        /\ exists n, In (TeamCount n) (events company st)
                     /\ get r "Company owner" PNone = PStr (tier_owner n)
    end.
Proof.
  revert d. paths; intros d Hin; member Hin; subst d.
  all: eexists; split; [reflexivity|].
  all: rewrite ?add_contact_other by discriminate.
  all: repeat split; try reflexivity.
  all: eexists; split; [simpl; eauto 10 | reflexivity].
Qed.

(** C8: whatever disposition a company gets, no collaborator of a
    later step was called for it. In particular a company without a
    website is never scraped, classified or analysed, and a company
    that leaves at the scrape, the relevance call or the team-data
    check never reaches the team analyzer. *)
Theorem short_circuit (company : dict) (st : State) (d : Disposition) :
  In d (verdict company st) ->
  (forall e, In e (events company st) -> call_step e <= exit_step d)
  /\ (d = Disqualified NoWebsite ->
        forall e, In e (events company st) ->
                  is_scrape e = false /\ is_classify e = false
                  /\ is_analyze e = false)
  /\ (d = Disqualified ScrapeFailed \/ d = Disqualified Irrelevant
       \/ d = ManualReview ClassifierError \/ d = ManualReview NoTeamData ->
        forall e, In e (events company st) -> is_analyze e = false).
Proof.
  revert d. paths; intros d Hin; member Hin; subst d.
  all: repeat split; intros.
  all: repeat match goal with
              | H : _ \/ _ |- _ => destruct H
              end; try discriminate.
  all: match goal with
       | H : In _ _ |- _ => member H; subst; cbn; auto; lia
       end.
Qed.

(** With a scraper that returns, an iteration returns and adds one row. *)
Lemma iteration_one_row (company : dict) (st : State) :
  always_returns scrape ->
  exists r, iteration company st = (Return tt, Fast.after scrape classify analyze company st)
            /\ results (Fast.after scrape classify analyze company st)
               = (results st ++ [r])%list.
Proof.
  intros Hs. paths.
  all: try (eexists; split; reflexivity).
  all: match goal with
       | H : scrape ?u ?w = (Raise _, _) |- _ =>
           destruct (Hs u w) as (? & ? & ?); congruence
       end.
Qed.

Lemma run_one_row_each (companies : list dict) (st : State) :
  always_returns scrape ->
  exists st' rs, run companies st = (Return tt, st')
                 /\ results st' = (results st ++ rs)%list
                 /\ List.length rs = List.length companies.
Proof.
  intros Hs. revert st.
  induction companies as [|company rest IH]; intros st; simpl.
  - exists st, []. now rewrite app_nil_r.
  - destruct (iteration_one_row company st Hs) as (r & -> & Hr).
    destruct (IH (Fast.after scrape classify analyze company st))
      as (st' & rs & -> & Hrs & Hlen).
    exists st', (r :: rs). repeat split.
    + now rewrite Hrs, Hr, <- app_assoc.
    + simpl. now rewrite Hlen.
Qed.

(** X20: the handler of the first [try]: when the relevance call
    raises, the iteration does not raise; the company gets the base row
    built from its input row, with no field changed, and is kept for
    manual review; the analyzer is not called. *)
Lemma classifier_failure_caught (company : dict) (st : State)
      (pages : Scraper.Pages) (w1 w2 : World) (e : exn) :
  let company_name := get company "Company name" (PStr "Unknown") in
  let website_url := get company "Website URL" (PStr "") in
  truthy website_url = true ->
  scrape website_url (world st) = (Return pages, w1) ->
  truthy_opt (Scraper.error pages) = false ->
  classify (relevance_input company_name pages) w1 = (Raise e, w2) ->
  iteration company st = (Return tt, Fast.after scrape classify analyze company st)
  /\ rows company st = [base_result company company_name website_url]
  /\ events company st
     = [CallScrape website_url;
        CallClassify (relevance_input company_name pages);
        ClassifierFailed e; Decided (ManualReview ClassifierError)].
Proof.
  intros company_name website_url Hu Hs He Hc.
  unfold Fast.rows, Fast.events, Fast.after, Fast.iteration, evaluate.
  fold company_name website_url. rewrite Hu. cbn [negb emit world].
  rewrite Hs. cbn [with_world world]. rewrite He, Hc. tidy. auto.
Qed.

(** X21: the handler of the second [try]: when the team analysis
    raises, the iteration does not raise; the company is kept for
    manual review with its base row changed only by the contact data
    the relevance call found. *)
Lemma analyzer_failure_caught (company : dict) (st : State)
      (pages : Scraper.Pages) (rel : Gemini.RelevanceAndContact)
      (w1 w2 w3 : World) (e : exn) :
  let company_name := get company "Company name" (PStr "Unknown") in
  let website_url := get company "Website URL" (PStr "") in
  truthy website_url = true ->
  scrape website_url (world st) = (Return pages, w1) ->
  truthy_opt (Scraper.error pages) = false ->
  classify (relevance_input company_name pages) w1 = (Return rel, w2) ->
  (negb (Gemini.is_relevant rel) && (0.8 <? Gemini.confidence rel)%float)%bool = false ->
  (Scraper.present (Scraper.team_page pages)
   || Scraper.present (Scraper.about_page pages))%bool = true ->
  analyze (team_input pages) w2 = (Raise e, w3) ->
  fst (iteration company st) = Return tt
  /\ rows company st
     = [add_contact rel (base_result company company_name website_url)]
  /\ verdict company st = [ManualReview AnalyzerError].
Proof.
  intros company_name website_url Hu Hs He Hc Hr Ht Ha.
  unfold Fast.verdict, Fast.rows, Fast.events, Fast.after, Fast.iteration, evaluate.
  fold company_name website_url. rewrite Hu. cbn [negb emit world].
  rewrite Hs. cbn [with_world world]. rewrite He, Hc.
  cbn [with_world world emit]. rewrite Hr, Ht. cbn [negb emit world].
  rewrite Ha.
  destruct ((List.length (results st) + 1) mod 10 =? 0)%nat; tidy; auto.
Qed.

(** X22: on every manual-review exit the row keeps the Company owner
    of the input row as it is ([None] when the column is missing); the
    ['James'] default of [result.get] is never used, because [result]
    always has the key. *)
Lemma manual_review_keeps_owner (company : dict) (st : State) (reason : Reason) :
  In (ManualReview reason) (verdict company st) ->
  exists r, rows company st = [r]
    /\ get r "Company owner" PNone = get company "Company owner" PNone.
Proof.
  paths; intros Hin; member Hin.
  all: eexists; split; [reflexivity|].
  all: rewrite ?add_contact_other by discriminate; reflexivity.
Qed.

(** X23: an iteration writes a checkpoint exactly when the company
    reached the team analysis (it did not leave through [continue])
    and the count of rows, this one included, is a multiple of ten;
    the checkpoint then holds all the rows so far. *)
Lemma checkpoint_only_after_team_step (company : dict) (st : State)
      (d : Disposition) :
  In d (verdict company st) ->
  snapshots company st
  = if ((exit_step d =? 5) && ((List.length (results st) + 1) mod 10 =? 0))%nat
    then [(List.length (results st) + 1,
           results (Fast.after scrape classify analyze company st))]
    else [].
Proof.
  revert d. paths; intros d Hin; member Hin; subst d; cbn [exit_step reason_step].
  all: cbn [Nat.eqb andb]; try reflexivity.
  all: match goal with
       | H : (_ mod 10 =? 0)%nat = _ |- _ => rewrite H
       end; reflexivity.
Qed.

(** What the relevance call answered is what the iteration prints and
    tests. *)
Lemma classifier_answer_is_logged (company : dict) (st : State)
      (pages : Scraper.Pages) (rel : Gemini.RelevanceAndContact) (w1 w2 : World) :
  let company_name := get company "Company name" (PStr "Unknown") in
  let website_url := get company "Website URL" (PStr "") in
  truthy website_url = true ->
  scrape website_url (world st) = (Return pages, w1) ->
  truthy_opt (Scraper.error pages) = false ->
  classify (relevance_input company_name pages) w1 = (Return rel, w2) ->
  In (Relevance (Gemini.is_relevant rel) (Gemini.confidence rel))
     (events company st)
  /\ exists r, rows company st = [r].
Proof.
  intros company_name website_url Hu Hs He Hc.
  unfold Fast.rows, Fast.events, Fast.after, Fast.iteration, evaluate,
         apply_team_rules.
  fold company_name website_url. rewrite Hu. cbn [negb emit world].
  rewrite Hs. cbn [with_world world]. rewrite He, Hc.
  cbn [with_world world emit].
  repeat (branch; cbn [world emit append with_world negb]).
  all: tidy; split; [simpl; auto 10 | eexists; reflexivity].
Qed.

(** The count the team analysis answered is the count the iteration
    prints and applies the rules to. *)
Lemma analyzer_answer_is_logged (company : dict) (st : State)
      (pages : Scraper.Pages) (rel : Gemini.RelevanceAndContact)
      (t : Gemini.TeamMemberCount) (w1 w2 w3 : World) :
  let company_name := get company "Company name" (PStr "Unknown") in
  let website_url := get company "Website URL" (PStr "") in
  truthy website_url = true ->
  scrape website_url (world st) = (Return pages, w1) ->
  truthy_opt (Scraper.error pages) = false ->
  classify (relevance_input company_name pages) w1 = (Return rel, w2) ->
  (negb (Gemini.is_relevant rel) && (0.8 <? Gemini.confidence rel)%float)%bool = false ->
  (Scraper.present (Scraper.team_page pages)
   || Scraper.present (Scraper.about_page pages))%bool = true ->
  analyze (team_input pages) w2 = (Return t, w3) ->
  In (TeamCount (Gemini.employee_count t)) (events company st).
Proof.
  intros company_name website_url Hu Hs He Hc Hr Ht Ha.
  unfold Fast.events, Fast.after, Fast.iteration, evaluate, apply_team_rules.
  fold company_name website_url. rewrite Hu. cbn [negb emit world].
  rewrite Hs. cbn [with_world world]. rewrite He, Hc.
  cbn [with_world world emit]. rewrite Hr, Ht. cbn [negb emit world].
  rewrite Ha.
  repeat (branch; cbn [world emit append with_world negb]).
  all: tidy; simpl; auto 10.
Qed.

(** C4: take a company that reaches the team analysis (it has a
    website, the scrape returned without error, the relevance call
    returned and did not disqualify it, a team or about page was
    found) and whose call [analyze_team_members] returns [t] with
    [employee_count t >= 0]. It gets exactly one row and one
    disposition: manual review for a failed parse when the count is
    0; disqualified as too small, with the count written to Number of
    Employees, when the count is from 1 to 4; approved from 5 on, with
    the count written and the owner James below 16, Ellinor below
    100, Matt from 100 on. *)
Theorem team_size_rules (company : dict) (st : State)
        (pages : Scraper.Pages) (rel : Gemini.RelevanceAndContact)
        (t : Gemini.TeamMemberCount) (w1 w2 w3 : World) :
  let company_name := get company "Company name" (PStr "Unknown") in
  let website_url := get company "Website URL" (PStr "") in
  let n := Gemini.employee_count t in
  truthy website_url = true ->
  scrape website_url (world st) = (Return pages, w1) ->
  truthy_opt (Scraper.error pages) = false ->
  classify (relevance_input company_name pages) w1 = (Return rel, w2) ->
  (negb (Gemini.is_relevant rel) && (0.8 <? Gemini.confidence rel)%float)%bool = false ->
  (Scraper.present (Scraper.team_page pages)
   || Scraper.present (Scraper.about_page pages))%bool = true ->
  analyze (team_input pages) w2 = (Return t, w3) ->
  (0 <= n)%Z ->
  exists r, rows company st = [r] /\
    (n = 0%Z -> verdict company st = [ManualReview TeamParseFailed]) /\
    ((1 <= n < 5)%Z ->
       verdict company st = [Disqualified TeamTooSmall]
       /\ get r "Number of Employees" PNone = PInt n) /\
    ((5 <= n)%Z ->
       verdict company st = [Approved]
       /\ get r "Number of Employees" PNone = PInt n
       /\ ((n < 16)%Z -> get r "Company owner" PNone = PStr "James")
       /\ ((16 <= n < 100)%Z -> get r "Company owner" PNone = PStr "Ellinor")
       /\ ((100 <= n)%Z -> get r "Company owner" PNone = PStr "Matt")).
Proof.
  intros company_name website_url n Hu Hs He Hc Hr Ht Ha Hn.
  apply logged_count_rules; [|exact Hn].
  exact (analyzer_answer_is_logged company st pages rel t w1 w2 w3
                                   Hu Hs He Hc Hr Ht Ha).
Qed.

(** C10: take a company that reaches the team analysis, as above, and
    whose call [analyze_team_members] returns [t] with a negative
    [employee_count t]. The count is not treated as a failed parse:
    the company is approved, its owner is James and Number of
    Employees holds the negative count. *)
Theorem negative_count_is_approved (company : dict) (st : State)
        (pages : Scraper.Pages) (rel : Gemini.RelevanceAndContact)
        (t : Gemini.TeamMemberCount) (w1 w2 w3 : World) :
  let company_name := get company "Company name" (PStr "Unknown") in
  let website_url := get company "Website URL" (PStr "") in
  let n := Gemini.employee_count t in
  truthy website_url = true ->
  scrape website_url (world st) = (Return pages, w1) ->
  truthy_opt (Scraper.error pages) = false ->
  classify (relevance_input company_name pages) w1 = (Return rel, w2) ->
  (negb (Gemini.is_relevant rel) && (0.8 <? Gemini.confidence rel)%float)%bool = false ->
  (Scraper.present (Scraper.team_page pages)
   || Scraper.present (Scraper.about_page pages))%bool = true ->
  analyze (team_input pages) w2 = (Return t, w3) ->
  (n < 0)%Z ->
  exists r, rows company st = [r]
    /\ verdict company st = [Approved]
    /\ get r "Company owner" PNone = PStr "James"
    /\ get r "Number of Employees" PNone = PInt n.
Proof.
  intros company_name website_url n Hu Hs He Hc Hr Ht Ha Hn.
  apply logged_negative_count; [|exact Hn].
  exact (analyzer_answer_is_logged company st pages rel t w1 w2 w3
                                   Hu Hs He Hc Hr Ht Ha).
Qed.

(** C5: take a company with a website whose scrape returned without
    error and whose call [classify_relevance_and_contact] returns
    [rel]. It gets one row in every case. If [rel] says not relevant,
    the company is disqualified as irrelevant exactly when
    [0.8 < confidence rel] on floats; it then gets the base row with
    the four "DQ" fields written, and nothing is called after the
    relevance call. At a confidence of 0.8 it is not disqualified as
    irrelevant, and a company [rel] says relevant never is. *)
Theorem irrelevant_threshold (company : dict) (st : State)
        (pages : Scraper.Pages) (rel : Gemini.RelevanceAndContact)
        (w1 w2 : World) :
  let company_name := get company "Company name" (PStr "Unknown") in
  let website_url := get company "Website URL" (PStr "") in
  truthy website_url = true ->
  scrape website_url (world st) = (Return pages, w1) ->
  truthy_opt (Scraper.error pages) = false ->
  classify (relevance_input company_name pages) w1 = (Return rel, w2) ->
  (exists r, rows company st = [r])
  /\ (Gemini.is_relevant rel = false ->
      (verdict company st = [Disqualified Irrelevant]
       <-> (0.8 <? Gemini.confidence rel)%float = true))
  /\ (Gemini.is_relevant rel = false ->
      (0.8 <? Gemini.confidence rel)%float = true ->
      rows company st
      = [update (base_result company company_name website_url) dq_update]
      /\ events company st
         = [CallScrape website_url;
            CallClassify (relevance_input company_name pages);
            Relevance false (Gemini.confidence rel);
            Decided (Disqualified Irrelevant)])
  /\ (Gemini.is_relevant rel = false -> Gemini.confidence rel = 0.8%float ->
      ~ In (Disqualified Irrelevant) (verdict company st))
  /\ (Gemini.is_relevant rel = true ->
      ~ In (Disqualified Irrelevant) (verdict company st)).
Proof.
  intros company_name website_url Hu Hs He Hc.
  destruct (classifier_answer_is_logged company st pages rel w1 w2
                                        Hu Hs He Hc) as (Hlog & Hrow).
  destruct (logged_relevance_threshold
              company st (Gemini.is_relevant rel) (Gemini.confidence rel) Hlog)
    as (Hiff & Hedge & Hrel).
  split; [exact Hrow|]. split; [exact Hiff|].
  split; [|split; [exact Hedge | exact Hrel]].
  intros Hn Hconf.
  unfold Fast.rows, Fast.events, Fast.after, Fast.iteration, evaluate.
  fold company_name website_url. rewrite Hu. cbn [negb emit world].
  rewrite Hs. cbn [with_world world]. rewrite He, Hc.
  cbn [with_world world emit]. rewrite Hn, Hconf. cbn [negb andb].
  tidy. split; reflexivity.
Qed.

End Facts.

End FastFacts.

(** ** Concrete runs *)

Module Runs.

Import Py Fast.

(** C1: a relevant company whose input row has no Company owner column
    and whose site has neither a team nor an about page is kept for
    manual review, and the Company owner of its row is [None], not
    "James": the default of [result.get('Company owner', 'James')] is
    computed for the console message only and never stored. *)
Theorem manual_review_owner_is_not_defaulted :
  let scrape := Scenario.scrape in
  let classify := Scenario.classify in
  let analyze := Scenario.analyze 20 in
  get Scenario.acme "Company owner" PNone = PNone
  /\ verdict scrape classify analyze Scenario.acme Scenario.start
     = [ManualReview NoTeamData]
  /\ exists r,
       rows scrape classify analyze Scenario.acme Scenario.start = [r]
       /\ get r "Company owner" PNone = PNone
       /\ get r "Company owner" PNone <> PStr "James".
Proof.
  cbv zeta. split; [reflexivity|]. split; [vm_compute; reflexivity|].
  eexists. split; [vm_compute; reflexivity|].
  split; [reflexivity | discriminate].
Qed.

(** C2: a batch of ten companies without a website yields ten rows and
    no checkpoint at all, because the "no website" branch leaves the
    loop body through [continue], before the checkpoint code; ten
    companies that all reach the team analysis do get the checkpoint
    with the ten rows. *)
Theorem checkpoint_skipped_on_continue :
  let process :=
    process_companies_fast Scenario.scrape Scenario.classify (Scenario.analyze 20) in
  let skipped := snd (process (Return Scenario.ten_without_website) 100%Z 0%Z 0) in
  let reached := snd (process (Return Scenario.ten_with_team) 100%Z 0%Z 0) in
  List.length (results skipped) = 10
  /\ decisions (trace skipped) = repeat (Disqualified NoWebsite) 10
  /\ checkpoints skipped = []
  /\ checkpoints reached = [(10, results reached)].
Proof.
  cbv zeta. repeat (match goal with |- _ /\ _ => split end); vm_compute; reflexivity.
Qed.

(** C3: on a batch of a relevant company without team data and a
    confidently irrelevant one, the classifier is called twice and the
    analyzer never, while the summary reports one first call and one
    team call, and counts no irrelevant company: the figures are
    recomputed from the rows, which do not record the reason. *)
Theorem summary_miscounts_calls :
  let out :=
    process_companies_fast Scenario.scrape Scenario.classify (Scenario.analyze 20)
                           (Return Scenario.two_companies) 100%Z 0%Z 0 in
  exists report,
    fst out = Finished report
    /\ decisions (trace (snd out))
       = [ManualReview NoTeamData; Disqualified Irrelevant]
    /\ classifier_calls (snd out) = 2
    /\ total_ai_calls (summary report) = 1
    /\ analyzer_calls (snd out) = 0
    /\ team_ai_calls (summary report) = 1
    /\ dq_irrelevant (summary report) = 0
    /\ manual_review (summary report) = 1.
Proof.
  cbv zeta. eexists. split; [vm_compute; reflexivity|].
  repeat (match goal with |- _ /\ _ => split end); vm_compute; reflexivity.
Qed.

(** The loop has no handler of its own around the scrape call: it
    relies on [scrape_company_pages] reporting failures in its [error]
    entry. Were a scraper to raise, the exception would leave the
    loop with no row written for the company. *)
Remark raising_scraper_aborts_batch :
  let out :=
    process_companies_fast Scenario.scrape_raising Scenario.classify
                           (Scenario.analyze 20)
                           (Return [Scenario.acme]) 100%Z 0%Z 0 in
  fst out = Crashed (Exception "connection reset")
  /\ results (snd out) = []
  /\ decisions (trace (snd out)) = [].
Proof.
  cbv zeta. repeat (match goal with |- _ /\ _ => split end); vm_compute; reflexivity.
Qed.

(** The scenario scraper returns on every URL. *)
Lemma scenario_scraper_returns : always_returns Scenario.scrape.
Proof.
  intros a w. unfold Scenario.scrape.
  destruct (eq_str a "https://down.example"); [eauto|].
  destruct (eq_str a "https://team.example"); eauto.
Defined.

Lemma team_size_rules_witness :
  exists r,
    rows Scenario.scrape Scenario.classify (Scenario.analyze 20)
         Scenario.acme_with_team Scenario.start = [r]
    /\ verdict Scenario.scrape Scenario.classify (Scenario.analyze 20)
               Scenario.acme_with_team Scenario.start = [Approved]
    /\ get r "Number of Employees" PNone = PInt 20
    /\ get r "Company owner" PNone = PStr "Ellinor".
Proof.
  assert (Hn : (0 <= 20)%Z) by lia.
  destruct (FastFacts.team_size_rules
              Scenario.scrape Scenario.classify (Scenario.analyze 20)
              Scenario.acme_with_team Scenario.start
              Scenario.home_and_team (Scenario.signal true 0.9)
              (Scenario.headcount 20) 1 2 3
              eq_refl eq_refl eq_refl eq_refl eq_refl eq_refl eq_refl Hn)
    as (r & Hr & _ & _ & H5).
  destruct H5 as (Hv & Hc & _ & HE & _); [cbn; lia|].
  exists r. split; [exact Hr|]. split; [exact Hv|]. split; [exact Hc|].
  apply HE. cbn. lia.
Defined.

Lemma negative_count_is_approved_witness :
  exists r,
    rows Scenario.scrape Scenario.classify (Scenario.analyze (-3))
         Scenario.acme_with_team Scenario.start = [r]
    /\ verdict Scenario.scrape Scenario.classify (Scenario.analyze (-3))
               Scenario.acme_with_team Scenario.start = [Approved]
    /\ get r "Company owner" PNone = PStr "James"
    /\ get r "Number of Employees" PNone = PInt (-3).
Proof.
  assert (Hn : (-3 < 0)%Z) by lia.
  exact (FastFacts.negative_count_is_approved
           Scenario.scrape Scenario.classify (Scenario.analyze (-3))
           Scenario.acme_with_team Scenario.start
           Scenario.home_and_team (Scenario.signal true 0.9)
           (Scenario.headcount (-3)) 1 2 3
           eq_refl eq_refl eq_refl eq_refl eq_refl eq_refl eq_refl Hn).
Defined.

Lemma irrelevant_threshold_witness :
  verdict Scenario.scrape Scenario.classify (Scenario.analyze 20)
          (Scenario.row "Bakery" "https://bakery.example") Scenario.start
  = [Disqualified Irrelevant]
  /\ ~ In (Disqualified Irrelevant)
          (verdict Scenario.scrape Scenario.classify (Scenario.analyze 20)
                   (Scenario.row "Unsure" "https://unsure.example") Scenario.start).
Proof.
  split.
  - destruct (FastFacts.irrelevant_threshold
                Scenario.scrape Scenario.classify (Scenario.analyze 20)
                (Scenario.row "Bakery" "https://bakery.example") Scenario.start
                Scenario.home_only (Scenario.signal false 0.95) 1 2
                eq_refl eq_refl eq_refl eq_refl) as (_ & H & _).
    apply H; reflexivity.
  - destruct (FastFacts.irrelevant_threshold
                Scenario.scrape Scenario.classify (Scenario.analyze 20)
                (Scenario.row "Unsure" "https://unsure.example") Scenario.start
                Scenario.home_only (Scenario.signal false 0.8) 1 2
                eq_refl eq_refl eq_refl eq_refl) as (_ & _ & _ & H & _).
    apply H; reflexivity.
Defined.

Lemma disposition_frame_witness :
  exists r,
    rows Scenario.scrape Scenario.classify (Scenario.analyze 20)
         (Scenario.row "Nameless" "") Scenario.start = [r]
    /\ get r "Lifecycle Stage" PNone = PStr "other"
    /\ get r "Company owner" PNone = PStr "no owner"
    /\ get r "Sector" PNone = PStr "n/a"
    /\ get r "Type" PNone = PStr "other".
Proof.
  apply (FastFacts.disposition_frame
           Scenario.scrape Scenario.classify (Scenario.analyze 20)
           (Scenario.row "Nameless" "") Scenario.start (Disqualified NoWebsite)).
  vm_compute. auto.
Defined.

Lemma short_circuit_witness :
  Forall (fun e => is_analyze e = false)
         (events Scenario.scrape Scenario.classify (Scenario.analyze 20)
                 Scenario.acme Scenario.start).
Proof.
  apply Forall_forall.
  destruct (FastFacts.short_circuit
              Scenario.scrape Scenario.classify (Scenario.analyze 20)
              Scenario.acme Scenario.start (ManualReview NoTeamData))
    as (_ & _ & H).
  - vm_compute. auto.
  - apply H. auto.
Defined.

End Runs.

(** ** [strip] and the whitespace test *)

Module StripFacts.

Import Py.

(** Some character of [s] is not white space. *)
Fixpoint has_ink (s : string) : bool :=
  match s with
  | EmptyString => false
  | String c s' => negb (is_space c) || has_ink s'
  end.

Lemma has_ink_app (s t : string) : has_ink (s ++ t) = has_ink s || has_ink t.
Proof.
  induction s as [|c s IH]; simpl; [reflexivity|].
  now rewrite IH, orb_assoc.
Qed.

Lemma has_ink_rev (s acc : string) :
  has_ink (rev_string s acc) = has_ink s || has_ink acc.
Proof.
  revert acc. induction s as [|c s IH]; intros acc; simpl; [reflexivity|].
  rewrite IH. simpl. destruct (is_space c), (has_ink s), (has_ink acc); reflexivity.
Qed.

Lemma has_ink_lstrip (s : string) : has_ink (lstrip s) = has_ink s.
Proof.
  induction s as [|c s IH]; simpl; [reflexivity|].
  destruct (is_space c) eqn:E; simpl; [exact IH | now rewrite E].
Qed.

Lemma lstrip_blank (s : string) : has_ink s = false -> lstrip s = "".
Proof.
  induction s as [|c s IH]; simpl; [reflexivity|].
  destruct (is_space c); simpl; [exact IH | discriminate].
Qed.

Lemma has_ink_strip (s : string) : has_ink (strip s) = has_ink s.
Proof.
  unfold strip, rstrip.
  rewrite has_ink_rev, has_ink_lstrip, has_ink_rev, has_ink_lstrip. simpl.
  now rewrite !orb_false_r.
Qed.

Lemma strip_empty_iff (s : string) : strip s = "" <-> has_ink s = false.
Proof.
  split; intros H.
  - rewrite <- has_ink_strip, H. reflexivity.
  - unfold strip, rstrip. now rewrite (lstrip_blank s H).
Qed.

End StripFacts.

(** ** The team analyzer *)

Module GeminiFacts.

Import Py Gemini StripFacts.

(** What [analyze_team_members] returns without asking the model. *)
Definition nobody : TeamMemberCount :=
  {| employee_count := 0; count_confidence := 0%float; names_found := [] |}.

(** C9, as the spec states it, fails for whitespace-only texts: a text
    of blanks is truthy, so its header is put in front of it, the
    content does not strip to the empty string, and the model is
    called; the count is the model's. *)
Theorem whitespace_text_reaches_the_model :
  analyze_team_members Scenario.invoke_seven Scenario.blank_data 0
  = (Return (Scenario.headcount 7),
     [team_header ++ "   " ++ about_header ++ " "], 1)
  /\ strip "   " = "" /\ strip " " = ""
  /\ Return (Scenario.headcount 7) <> Return nobody.
Proof.
  repeat (match goal with |- _ /\ _ => split end);
    try (vm_compute; reflexivity).
  intros H.
  apply (f_equal (fun r => match r with
                           | Return t => employee_count t
                           | Raise _ => 0%Z
                           end)) in H.
  discriminate H.
Qed.

Section Analyzer.

Context {World : Type}.
Variable invoke : string -> World -> result TeamMemberCount * World.

(** C9 (amended): when the team text and the about text are both
    empty or absent, [analyze_team_members] returns a count of 0, a
    confidence of 0.0 and no names, calls the model not at all and
    leaves the world as it was. *)
Theorem empty_inputs_skip_the_model (data : company_data) (w : World) :
  truthy_opt (team_text data) = false ->
  truthy_opt (about_text data) = false ->
  analyze_team_members invoke data w = (Return nobody, [], w).
Proof.
  intros Ht Ha. unfold analyze_team_members. rewrite Ht, Ha. reflexivity.
Qed.

End Analyzer.

Lemma empty_inputs_skip_the_model_witness :
  analyze_team_members Scenario.invoke_seven Scenario.empty_data 0
  = (Return nobody, [], 0).
Proof.
  apply (empty_inputs_skip_the_model Scenario.invoke_seven Scenario.empty_data 0);
    reflexivity.
Defined.

End GeminiFacts.

(** ** What the model calls are given *)

Module ContentFacts.

Import Py Gemini StripFacts.

Lemma strip_keeps_ink (s : string) :
  has_ink s = true -> (strip s =? "") = false.
Proof.
  intros H. apply String.eqb_neq. intros E.
  apply strip_empty_iff in E. congruence.
Qed.

Lemma strip_of_blank (s : string) :
  has_ink s = false -> (strip s =? "") = true.
Proof.
  intros H. apply String.eqb_eq. now apply strip_empty_iff.
Qed.

(** The team section followed by the about section, each present when
    its text is not empty. *)
Definition sections (team_head about_head : string)
           (team about : option string) : string :=
  (if truthy_opt team then team_head ++ get_text team else "")
  ++ (if truthy_opt about then about_head ++ get_text about else "").

Lemma sections_ink (team_head about_head : string) (team about : option string) :
  has_ink team_head = true -> has_ink about_head = true ->
  truthy_opt team || truthy_opt about = true ->
  has_ink (sections team_head about_head team about) = true.
Proof.
  intros Ht Ha H. unfold sections.
  destruct (truthy_opt team), (truthy_opt about); try discriminate H;
    rewrite !has_ink_app, ?Ht, ?Ha; simpl; rewrite ?orb_true_r; reflexivity.
Qed.

Lemma append_empty_r (s : string) : s ++ "" = s.
Proof. induction s as [|c s IH]; simpl; congruence. Qed.

Lemma append_assoc (s t u : string) : (s ++ t) ++ u = s ++ t ++ u.
Proof. induction s as [|c s IH]; simpl; congruence. Qed.

(** The content as the two functions build it, by appending to an
    empty string. *)
Lemma built_content (team_head about_head : string) (team about : option string) :
  (if truthy_opt about
   then (if truthy_opt team then "" ++ team_head ++ get_text team else "")
        ++ about_head ++ get_text about
   else (if truthy_opt team then "" ++ team_head ++ get_text team else ""))
  = sections team_head about_head team about.
Proof.
  unfold sections.
  destruct (truthy_opt team), (truthy_opt about); cbn [append];
    rewrite ?append_empty_r, ?append_assoc; reflexivity.
Qed.

Section Calls.

Context {World : Type}.
Variable invoke : string -> World -> result TeamMemberCount * World.

(** X1: when the team text or the about text is not empty,
    [analyze_team_members] calls the model exactly once, on the team
    section followed by the about section (each under its header, each
    only if its text is not empty), and hands back what the model
    returned or raised, even for texts made of blanks only. *)
Theorem analyzer_asks_the_model (data : company_data) (w : World) :
  truthy_opt (team_text data) || truthy_opt (about_text data) = true ->
  analyze_team_members invoke data w
  = (fst (invoke (sections team_header about_header
                           (team_text data) (about_text data)) w),
     [sections team_header about_header (team_text data) (about_text data)],
     snd (invoke (sections team_header about_header
                           (team_text data) (about_text data)) w)).
Proof.
  intros H.
  pose proof (sections_ink team_header about_header _ _ eq_refl eq_refl H) as Hink.
  apply strip_keeps_ink in Hink.
  unfold analyze_team_members. cbv zeta. rewrite built_content, Hink.
  cbn [negb]. now destruct (invoke _ w).
Qed.

(** X2: [count_team_members] returns a count of 0 without calling the
    model exactly when both contents are empty or absent; otherwise it
    calls the model once, on the team section followed by the about
    section, and hands back what the model returned or raised. *)
Theorem counter_asks_the_model_iff (team about : option string) (w : World) :
  (truthy_opt team || truthy_opt about = false ->
   count_team_members invoke team about w
   = (Return {| employee_count := 0; count_confidence := 0%float;
                names_found := [] |}, [], w))
  /\ (truthy_opt team || truthy_opt about = true ->
      count_team_members invoke team about w
      = (fst (invoke (sections count_team_header count_about_header team about) w),
         [sections count_team_header count_about_header team about],
         snd (invoke (sections count_team_header count_about_header team about) w))).
Proof.
  split; intros H.
  - unfold count_team_members.
    destruct (truthy_opt team), (truthy_opt about); try discriminate H.
    reflexivity.
  - pose proof (sections_ink count_team_header count_about_header _ _
                             eq_refl eq_refl H) as Hink.
    apply strip_keeps_ink in Hink.
    unfold count_team_members. cbv zeta. rewrite built_content, Hink.
    cbn [negb]. now destruct (invoke _ w).
Qed.

End Calls.

End ContentFacts.

(** ** The relevance call *)

Module ClassifierFacts.

Import Py Gemini StripFacts ContentFacts.

Section Calls.

Context {World : Type}.
Variable invoke :
  value -> string -> World -> result RelevanceAndContact * World.

(** X3: [classify_relevance_and_contact] has no guard for missing
    content: it always asks the model, with the stripped selection of
    the texts, and hands back the model's answer or exception; when the
    about, contact and homepage texts are all empty the model is asked
    about the empty string; when the about and the contact text are
    both there, the selection is these two sections and the homepage
    text plays no part. *)
Theorem classifier_always_asks (data : company_data) (w : World) :
  classify_relevance_and_contact invoke data w
  = invoke (name_or_empty data) (strip (website_content data)) w
  /\ (truthy_opt (about_text data) = false ->
      truthy_opt (contact_text data) = false ->
      truthy_opt (homepage_text data) = false ->
      strip (website_content data) = "")
  /\ (truthy_opt (about_text data) = true ->
      truthy_opt (contact_text data) = true ->
      website_content data
      = relevance_about_header ++ get_text (about_text data)
        ++ relevance_contact_header ++ get_text (contact_text data)).
Proof.
  split; [|split].
  - unfold classify_relevance_and_contact.
    destruct (invoke _ _ w) as [[r|e] w']; [destruct r|]; reflexivity.
  - intros Ha Hc Hh. unfold website_content. rewrite Ha, Hc, Hh. reflexivity.
  - intros Ha Hc. unfold website_content. rewrite Ha, Hc.
    cbn [negb orb andb append]. now rewrite append_assoc.
Qed.

End Calls.

End ClassifierFacts.

(** ** The scraper *)

Module ScraperFacts.

Import Py Scraper.

Lemma length_append (s t : string) :
  String.length (s ++ t) = String.length s + String.length t.
Proof. induction s as [|c s IH]; simpl; congruence. Qed.

Lemma length_substring (n m : nat) (s : string) :
  String.length (substring n m s) <= m.
Proof.
  revert n m. induction s as [|c s IH]; intros n m.
  - destruct n, m; simpl; lia.
  - destruct n as [|n]; destruct m as [|m]; simpl; try lia.
    + specialize (IH 0 m). lia.
    + apply IH.
    + apply IH.
Qed.

Lemma filter_nil_iff {A} (f : A -> bool) (l : list A) :
  filter f l = [] <-> forall x, In x l -> f x = false.
Proof.
  induction l as [|a l IH]; simpl.
  - split; [intros _ x [] | reflexivity].
  - destruct (f a) eqn:E; split.
    + discriminate.
    + intros H. specialize (H a (or_introl eq_refl)). congruence.
    + intros H x [<-|Hx]; [exact E | now apply IH].
    + intros H. apply IH. intros x Hx. apply H. now right.
Qed.

(** X4: [extract_business_description] gives no description exactly
    when no line of the text has more than 50 characters once stripped
    (in particular for the empty text); a description it gives has at
    most 503 characters. *)
Theorem description_none_iff_and_bounded (text : string) :
  (extract_business_description text = None
   <-> forall line, In line (split (ascii_of_nat 10) text) ->
                    String.length (strip line) <= 50)
  /\ (forall d, extract_business_description text = Some d ->
                String.length d <= 503).
Proof.
  unfold extract_business_description.
  destruct (String.eqb_spec text "") as [->|Hne]; cbn [negb].
  - split; [|discriminate]. split; [|reflexivity].
    intros _ line [<-|[]]. vm_compute. lia.
  - set (keep := fun line : string => (50 <? String.length (strip line))%nat).
    destruct (filter keep (split (ascii_of_nat 10) text)) as [|l ls] eqn:E.
    + split; [|discriminate]. split; [|reflexivity].
      intros _ line Hin.
      pose proof (proj1 (filter_nil_iff keep _) E line Hin) as Hk.
      unfold keep in Hk. apply Nat.ltb_ge in Hk. exact Hk.
    + split.
      * split.
        -- destruct (500 <? _)%nat; discriminate.
        -- intros H. exfalso.
           assert (Hin : In l (filter keep (split (ascii_of_nat 10) text)))
             by (rewrite E; now left).
           apply filter_In in Hin. destruct Hin as [Hin Hk].
           unfold keep in Hk. apply Nat.ltb_lt in Hk.
           specialize (H l Hin). lia.
      * intros d. cbv zeta.
        generalize (join " " (firstn 3 (l :: ls))). intros description.
        destruct (500 <? _)%nat eqn:Hlen; intros [= <-].
        -- rewrite length_append. unfold take.
           pose proof (length_substring 0 500 description) as Hs.
           change (String.length "...") with 3. lia.
        -- apply Nat.ltb_ge in Hlen. lia.
Qed.

Section Pages.

Context {World : Type}.
Variable scrape_single_page : value -> World -> option Page * World.
Variable find_about_page : string -> value -> result (option string).
Variable find_team_page : string -> value -> result (option string).
Variable find_contact_page : string -> value -> result (option string).

Local Abbreviation scrape :=
  (scrape_company_pages scrape_single_page find_about_page find_team_page
                        find_contact_page).

Local Abbreviation follow := (Scraper.follow scrape_single_page).

(** Following a link fills at most the slot it is for. *)
Lemma follow_cases (found : option string) (store : Page -> Pages -> Pages)
      (r : Pages) (w : World) :
  (exists w', follow found store r w = (r, w'))
  \/ (exists p w', follow found store r w = (store p r, w')).
Proof.
  unfold Scraper.follow. destruct (truthy_opt found); [|eauto].
  destruct (scrape_single_page _ w) as [[p|] w']; eauto.
Qed.

(** Whatever the page fetches give and whatever the link finders do,
    [scrape_company_pages] returns. *)
Lemma scrape_company_pages_returns : Fast.always_returns scrape.
Proof.
  intros u w. unfold scrape_company_pages.
  destruct (scrape_single_page u w) as [[hp|] w0]; [|eauto].
  destruct (find_about_page _ u); [|eauto].
  destruct (follow _ set_about_page _ w0) as [r1 w1].
  destruct (find_team_page _ u); [|eauto].
  destruct (follow _ set_team_page r1 w1) as [r2 w2].
  destruct (find_contact_page _ u); [|eauto].
  destruct (follow _ set_contact_page r2 w2) as [r3 w3]. eauto.
Qed.

Ltac step_follow :=
  match goal with
  | |- context [Scraper.follow ?f ?found ?store ?r ?w] =>
      destruct (follow_cases found store r w) as [(? & ->)|(? & ? & ->)]
  end.

(** X5: what [scrape_company_pages] returns: the [employee_count]
    entry is never filled; without a homepage the error is "Could not
    access homepage" and no other page nor a description is there; a
    result without error has its homepage; the description is always
    the one extracted from the homepage text; an error message is
    "Could not access homepage" or starts with "Scraping error: ", so
    it is never empty. *)
Theorem scrape_result_shape (website_url : value) (w : World) :
  exists r w',
    scrape website_url w = (Return r, w')
    /\ employee_count r = None
    /\ (homepage r = None ->
        error r = Some "Could not access homepage"
        /\ about_page r = None /\ team_page r = None
        /\ contact_page r = None /\ business_description r = None)
    /\ (error r = None -> homepage r <> None)
    /\ (forall hp, homepage r = Some hp ->
                   business_description r
                   = extract_business_description (text hp))
    /\ (forall m, error r = Some m ->
                  truthy_opt (Some m) = true
                  /\ (m = "Could not access homepage"
                      \/ exists e, m = "Scraping error: " ++ message e)).
Proof.
  unfold scrape_company_pages.
  destruct (scrape_single_page website_url w) as [[hp|] w0].
  2: { do 2 eexists. split; [reflexivity|]. cbn.
       repeat (match goal with |- _ /\ _ => split end); auto; try discriminate.
       intros m [= <-]. auto. }
  destruct (find_about_page _ website_url) as [about_url|e].
  2: { do 2 eexists. split; [reflexivity|]. cbn.
       repeat (match goal with |- _ /\ _ => split end); auto; try discriminate.
       - intros ? [= <-]. reflexivity.
       - intros m [= <-]. split; [reflexivity | eauto]. }
  step_follow.
  all: destruct (find_team_page _ website_url) as [team_url|e].
  all: try step_follow.
  all: try destruct (find_contact_page _ website_url) as [contact_url|e].
  all: try step_follow.
  all: do 2 eexists; (split; [reflexivity|]); cbn.
  all: repeat (match goal with |- _ /\ _ => split end); auto; try discriminate.
  all: try (intros ? [= <-]; reflexivity).
  all: intros m [= <-]; split; [reflexivity | eauto].
Qed.

End Pages.

End ScraperFacts.

(** ** The rows of the loop *)

Module RowFacts.

Import Py Fast PyFacts FastFacts.

(** The value a contact field ends with: the one found, if any. *)
Definition found_or_kept (found : option string) (kept : value) : value :=
  if truthy_opt found then PStr (Gemini.get_text found) else kept.

(** The fields no branch of the loop writes. *)
Definition untouched_columns : list string :=
  [ "Record ID"; "Company Domain Name"; "City"; "Country"; "Create Date";
    "Last Activity Date"; "Country/Region"; "Industry" ].

Lemma set_keys (d : dict) (k : string) (v : value) :
  In k (map fst d) -> map fst (set d k v) = map fst d.
Proof.
  induction d as [|[k' v'] d IH]; simpl; [intros []|].
  destruct (String.eqb_spec k' k) as [->|Hne]; simpl; [reflexivity|].
  intros [E|Hin]; [congruence|]. now rewrite IH.
Qed.

Lemma add_contact_keys (rel : Gemini.RelevanceAndContact) (d : dict) :
  In "Phone Number" (map fst d) -> In "Street Address" (map fst d) ->
  map fst (add_contact rel d) = map fst d.
Proof.
  intros Hp Ha. unfold add_contact.
  destruct (truthy_opt (Gemini.phone_number rel));
    destruct (truthy_opt (Gemini.street_address rel));
    rewrite ?set_keys; rewrite ?set_keys; auto.
Qed.

Lemma add_contact_phone (rel : Gemini.RelevanceAndContact) (d : dict) :
  get (add_contact rel d) "Phone Number" PNone
  = found_or_kept (Gemini.phone_number rel) (get d "Phone Number" PNone).
Proof.
  unfold add_contact, found_or_kept.
  destruct (truthy_opt (Gemini.phone_number rel));
    destruct (truthy_opt (Gemini.street_address rel));
    rewrite ?get_set_other by discriminate; rewrite ?get_set_same; reflexivity.
Qed.

Lemma add_contact_address (rel : Gemini.RelevanceAndContact) (d : dict) :
  get (add_contact rel d) "Street Address" PNone
  = found_or_kept (Gemini.street_address rel) (get d "Street Address" PNone).
Proof.
  unfold add_contact, found_or_kept.
  destruct (truthy_opt (Gemini.phone_number rel));
    destruct (truthy_opt (Gemini.street_address rel));
    rewrite ?get_set_same; rewrite ?get_set_other by discriminate; reflexivity.
Qed.

(** Reading back every key of a dictionary without repeated keys gives
    the dictionary. *)
Lemma select_own_keys (r : dict) (default : value) :
  NoDup (map fst r) ->
  map (fun c => (c, get r c default)) (map fst r) = r.
Proof.
  induction r as [|[k v] r IH]; simpl; [reflexivity|].
  intros Hnd. inversion Hnd as [|? ? Hk Hr]; subst.
  rewrite String.eqb_refl. f_equal.
  rewrite <- (IH Hr) at 2. apply map_ext_in.
  intros c Hc. destruct (String.eqb_spec k c) as [->|_]; [contradiction|reflexivity].
Qed.

Lemma hubspot_columns_distinct : NoDup hubspot_columns.
Proof.
  unfold hubspot_columns.
  repeat (constructor; [simpl; intuition discriminate|]). constructor.
Qed.

Section Rows.

Context {World : Type}.
Variable scrape : value -> World -> result Scraper.Pages * World.
Variable classify :
  Gemini.company_data -> World -> result Gemini.RelevanceAndContact * World.
Variable analyze :
  Gemini.company_data -> World -> result Gemini.TeamMemberCount * World.

Local Abbreviation events := (Fast.events scrape classify analyze).
Local Abbreviation rows := (Fast.rows scrape classify analyze).
Local Abbreviation verdict := (Fast.verdict scrape classify analyze).
Local Abbreviation snapshots := (Fast.snapshots scrape classify analyze).
Local Abbreviation after := (Fast.after scrape classify analyze).
Local Abbreviation iteration := (Fast.iteration scrape classify analyze).
Local Abbreviation run := (Fast.run scrape classify analyze).

(** An iteration only appends: to the rows, to the trace, to the
    checkpoints. *)
Lemma after_extends (company : dict) (st : State) :
  results (after company st) = (results st ++ rows company st)%list
  /\ trace (after company st) = (trace st ++ events company st)%list
  /\ checkpoints (after company st)
     = (checkpoints st ++ snapshots company st)%list.
Proof.
  unfold Fast.rows, Fast.events, Fast.snapshots.
  assert (H : exists rs evs cps,
             results (after company st) = (results st ++ rs)%list
             /\ trace (after company st) = (trace st ++ evs)%list
             /\ checkpoints (after company st) = (checkpoints st ++ cps)%list).
  { unfold Fast.after, Fast.iteration, evaluate, apply_team_rules.
    cbn [world emit append with_world].
    repeat (branch; cbn [world emit append with_world negb]).
    all: cbn [fst snd results trace checkpoints world emit append with_world
              save_checkpoint].
    all: repeat rewrite <- app_assoc.
    all: do 3 eexists.
    all: repeat match goal with |- _ /\ _ => split end.
    all: first [reflexivity | symmetry; apply app_nil_r]. }
  destruct H as (rs & evs & cps & -> & -> & ->).
  now rewrite !skipn_exact.
Qed.

(** X6: the "no website" exit is taken exactly when the Website URL
    of the row is falsy (a missing column, an empty string); the [nan]
    pandas reads from a blank cell is truthy, so such a company is sent
    to the scraper. *)
Theorem no_website_iff_falsy_url (company : dict) (st : State) :
  (verdict company st = [Disqualified NoWebsite]
   <-> truthy (get company "Website URL" (PStr "")) = false)
  /\ (get company "Website URL" (PStr "") = PNaN ->
      In (CallScrape PNaN) (events company st)
      /\ ~ In (Disqualified NoWebsite) (verdict company st)).
Proof.
  paths.
  all: match goal with
       | H : negb (truthy ?u) = _ |- _ =>
           destruct (truthy u) eqn:Hu; cbn [negb] in H; try discriminate H
       end.
  all: split; [split; intros Hx; first [reflexivity | discriminate Hx]|].
  all: intros Hn; rewrite Hn in *; try discriminate Hu.
  all: split; [simpl; auto | intros Hm; member Hm].
Qed.

(** Every row has the seventeen columns of the import, in its order. *)
Lemma rows_have_import_columns (company : dict) (st : State) :
  Forall (fun r => map fst r = hubspot_columns) (rows company st).
Proof.
  paths.
  all: repeat constructor.
  all: rewrite ?add_contact_keys; try reflexivity.
  all: vm_compute; auto 20.
Qed.

(** X7: whatever the disposition, the row keeps the Record ID, Company
    Domain Name, City, Country, Create Date, Last Activity Date,
    Country/Region and Industry of the input row (None for a missing
    column), its Company name ('Unknown' for a missing column) and its
    Website URL ('' for a missing column). *)
Theorem untouched_fields (company r : dict) (st : State) :
  In r (rows company st) ->
  (forall k, In k untouched_columns -> get r k PNone = get company k PNone)
  /\ get r "Company name" PNone = get company "Company name" (PStr "Unknown")
  /\ get r "Website URL" PNone = get company "Website URL" (PStr "").
Proof.
  paths; intros Hin; member Hin; subst r.
  all: split; [intros k Hk; member Hk; subst k|split].
  all: rewrite ?add_contact_other by discriminate; reflexivity.
Qed.

(** X8: Number of Employees is the input row's value, or 11 when the
    column is missing, on every exit but the two that write the team
    count (a team that is too small, an approval). *)
Theorem employees_default (company : dict) (st : State) (d : Disposition) :
  In d (verdict company st) ->
  d <> Disqualified TeamTooSmall -> d <> Approved ->
  exists r, rows company st = [r]
    /\ get r "Number of Employees" PNone
       = get company "Number of Employees" (PInt 11).
Proof.
  revert d. paths; intros d Hin Hs Ha; member Hin; subst d;
    try congruence.
  all: eexists; split; [reflexivity|].
  all: rewrite ?add_contact_other by discriminate; reflexivity.
Qed.

(** X9: the phone number and the street address found by the relevance
    call are written, each only when it is not empty, on the
    manual-review exits after that call and on approval; a
    disqualified company (also one whose team is too small) and a
    company whose relevance call failed keep the contact fields of the
    input row. *)
Theorem contact_overlay (company : dict) (st : State) (d : Disposition) :
  In d (verdict company st) ->
  exists r, rows company st = [r] /\
    match d with
    | Disqualified _ | ManualReview ClassifierError =>
        get r "Phone Number" PNone = get company "Phone Number" PNone
        /\ get r "Street Address" PNone = get company "Street Address" PNone
    | _ =>
        exists data w rel w',
          classify data w = (Return rel, w')
          /\ In (CallClassify data) (events company st)
          /\ get r "Phone Number" PNone
             = found_or_kept (Gemini.phone_number rel)
                             (get company "Phone Number" PNone)
          /\ get r "Street Address" PNone
             = found_or_kept (Gemini.street_address rel)
                             (get company "Street Address" PNone)
    end.
Proof.
  revert d. paths; intros d Hin; member Hin; subst d.
  all: eexists; split; [reflexivity|].
  all: try (split; reflexivity).
  all: do 4 eexists; split; [eassumption|].
  all: split; [simpl; auto|].
  all: rewrite add_contact_phone, add_contact_address; split; reflexivity.
Qed.

End Rows.

End RowFacts.

(** ** Whole runs *)

Module RunFacts.

Import Py Fast PyFacts FastFacts RowFacts.

Definition scrape_calls {World : Type} (st : @State World) : nat :=
  List.length (filter is_scrape (trace st)).

Definition is_no_website (d : Disposition) : bool :=
  match d with
  | Disqualified NoWebsite => true
  | _ => false
  end.

(** The state a run starts from. *)
Definition initial {World : Type} (w : World) : State :=
  {| results := []; checkpoints := []; trace := []; world := w |}.

Lemma decisions_app (evs evs' : list Event) :
  decisions (evs ++ evs') = (decisions evs ++ decisions evs')%list.
Proof.
  induction evs as [|e evs IH]; simpl; [reflexivity|].
  destruct e; simpl; now rewrite ?IH.
Qed.

Lemma count_if_app (p : dict -> bool) (rs rs' : list dict) :
  count_if p (rs ++ rs') = count_if p rs + count_if p rs'.
Proof. unfold count_if. now rewrite filter_app, length_app. Qed.

Lemma slice_window {A} (df : list A) (start_from batch_size : Z) :
  (0 <= start_from)%Z -> (0 <= batch_size)%Z ->
  slice df start_from
        (Z.min (start_from + batch_size) (Z.of_nat (List.length df)))
  = firstn (Z.to_nat batch_size) (skipn (Z.to_nat start_from) df).
Proof.
  intros Hs Hb. unfold slice, clamp.
  set (n := Z.of_nat (List.length df)).
  destruct (Z.ltb_spec start_from 0); [lia|].
  destruct (Z.ltb_spec (Z.min (start_from + batch_size) n) 0); [lia|].
  destruct (Z_le_gt_dec n start_from) as [Hge|Hlt].
  - rewrite (skipn_all2 (n := Z.to_nat (Z.min start_from n))) by (unfold n in *; lia).
    rewrite (skipn_all2 (n := Z.to_nat start_from)) by (unfold n in *; lia).
    now rewrite !firstn_nil.
  - replace (Z.min start_from n) with start_from by lia.
    assert (Hlen : List.length (skipn (Z.to_nat start_from) df)
                   = Z.to_nat (n - start_from))
      by (rewrite length_skipn; unfold n; lia).
    destruct (Z_le_gt_dec batch_size (n - start_from)).
    + f_equal. lia.
    + rewrite !firstn_all2 by lia. reflexivity.
Qed.

Lemma slice_length {A} (df : list A) (a b : Z) :
  List.length (slice df a b) <= List.length df.
Proof.
  unfold slice. rewrite length_firstn, length_skipn. lia.
Qed.

Section Runs.

Context {World : Type}.
Variable scrape : value -> World -> result Scraper.Pages * World.
Variable classify :
  Gemini.company_data -> World -> result Gemini.RelevanceAndContact * World.
Variable analyze :
  Gemini.company_data -> World -> result Gemini.TeamMemberCount * World.

Local Abbreviation events := (Fast.events scrape classify analyze).
Local Abbreviation rows := (Fast.rows scrape classify analyze).
Local Abbreviation verdict := (Fast.verdict scrape classify analyze).
Local Abbreviation snapshots := (Fast.snapshots scrape classify analyze).
Local Abbreviation after := (Fast.after scrape classify analyze).
Local Abbreviation iteration := (Fast.iteration scrape classify analyze).
Local Abbreviation run := (Fast.run scrape classify analyze).
Local Abbreviation process :=
  (Fast.process_companies_fast scrape classify analyze).

(** What every iteration keeps, a run keeps. *)
Lemma run_preserves (Q : State -> Prop) :
  (forall company st, Q st -> Q (after company st)) ->
  forall companies st, Q st -> Q (snd (run companies st)).
Proof.
  intros Hstep. induction companies as [|company rest IH]; intros st HQ.
  - exact HQ.
  - simpl. pose proof (Hstep company st HQ) as HQ'.
    unfold Fast.after in HQ'.
    destruct (Fast.iteration scrape classify analyze company st)
      as [[u|e] st1]; simpl in HQ'; [now apply IH | exact HQ'].
Qed.

(** The state [process_companies_fast] ends in is the one its loop
    ends in. *)
Lemma process_state (df : result (list dict)) (batch_size start_from : Z)
      (w : World) :
  snd (process df batch_size start_from w) = initial w
  \/ exists df', df = Return df'
       /\ snd (process df batch_size start_from w)
          = snd (run (slice df' start_from
                            (Z.min (start_from + batch_size)
                                   (Z.of_nat (List.length df'))))
                     (initial w)).
Proof.
  unfold process_companies_fast. destruct df as [df'|e]; [right|now left].
  exists df'. split; [reflexivity|]. fold (initial w).
  destruct (Fast.run _ _ _ _ (initial w)) as [[u|e] st]; [|reflexivity].
  destruct (results st); reflexivity.
Qed.

Lemma process_preserves (Q : State -> Prop) :
  (forall company st, Q st -> Q (after company st)) ->
  forall df batch_size start_from w,
    Q (initial w) -> Q (snd (process df batch_size start_from w)).
Proof.
  intros Hstep df batch_size start_from w H0.
  destruct (process_state df batch_size start_from w) as [->|(df' & _ & ->)];
    [exact H0|].
  now apply run_preserves.
Qed.

(** A checkpoint is written for a row count that is a multiple of ten
    and holds all the rows so far. *)
Lemma snapshot_shape (company : dict) (st : State) (k : nat) (rs : list dict) :
  In (k, rs) (snapshots company st) ->
  k mod 10 = 0 /\ List.length rs = k /\ rs = results (after company st).
Proof.
  paths; intros Hin; member Hin.
  all: injection Hin as <- <-.
  all: match goal with
       | H : (_ =? 0)%nat = true |- _ => apply Nat.eqb_eq in H
       end.
  all: repeat match goal with |- _ /\ _ => split end;
    [assumption | rewrite length_app; simpl; lia | reflexivity].
Qed.

(** For one company each collaborator is called at most once, the
    analyzer only after the classifier, the classifier only after the
    scraper. *)
Lemma calls_per_company (company : dict) (st : State) :
  List.length (filter is_analyze (events company st))
  <= List.length (filter is_classify (events company st))
  /\ List.length (filter is_classify (events company st))
     <= List.length (filter is_scrape (events company st))
  /\ List.length (filter is_scrape (events company st)) <= 1.
Proof.
  paths. all: simpl; lia.
Qed.

(** A row has a falsy Website URL exactly when it left through the
    "no website" exit. *)
Lemma no_website_counted (company : dict) (st : State) :
  count_if (fun r => negb (truthy (get r "Website URL" PNone)))
           (rows company st)
  = List.length (filter is_no_website (verdict company st)).
Proof.
  paths.
  all: unfold count_if; cbn [filter].
  all: rewrite ?add_contact_other by discriminate.
  all: match goal with
       | H : negb (truthy ?u) = ?b |- context [if negb (truthy ?x) then _ else _] =>
           change x with u; rewrite H
       | _ => idtac
       end.
  all: reflexivity.
Qed.

Definition checkpoints_ok (st : @State World) : Prop :=
  forall k rs, In (k, rs) (checkpoints st) ->
    k mod 10 = 0 /\ List.length rs = k /\ rs = firstn k (results st).

Lemma checkpoints_ok_step (company : dict) (st : State) :
  checkpoints_ok st -> checkpoints_ok (after company st).
Proof.
  intros Hok k rs Hin.
  destruct (after_extends scrape classify analyze company st) as (Hr & _ & Hc).
  rewrite Hc in Hin. apply in_app_or in Hin. destruct Hin as [Hin|Hin].
  - destruct (Hok k rs Hin) as (Hm & Hl & Hf).
    repeat match goal with |- _ /\ _ => split end; auto.
    rewrite Hr, firstn_app.
    assert (k <= List.length (results st))
      by (rewrite <- Hl, Hf, length_firstn; lia).
    replace (k - List.length (results st)) with 0 by lia.
    now rewrite firstn_O, app_nil_r.
  - destruct (snapshot_shape company st k rs Hin) as (Hm & Hl & Hf).
    repeat match goal with |- _ /\ _ => split end; auto.
    rewrite <- Hf, <- Hl. now rewrite firstn_all.
Qed.

(** X10: every checkpoint file a run writes is numbered with a
    multiple of ten and holds exactly the first that many rows of the
    final results. *)
Theorem checkpoints_are_prefixes (df : result (list dict))
        (batch_size start_from : Z) (w : World) (k : nat) (rs : list dict) :
  In (k, rs) (checkpoints (snd (process df batch_size start_from w))) ->
  k mod 10 = 0 /\ List.length rs = k
  /\ rs = firstn k (results (snd (process df batch_size start_from w))).
Proof.
  revert k rs. change (checkpoints_ok (snd (process df batch_size start_from w))).
  apply process_preserves; [exact checkpoints_ok_step|].
  intros k rs [].
Qed.

(** X11: over a whole run the team analyzer is called at most as often
    as the relevance classifier, the classifier at most as often as
    the scraper, and the scraper at most once per company of the
    input. *)
Theorem calls_are_nested (df : list dict) (batch_size start_from : Z) (w : World) :
  analyzer_calls (snd (process (Return df) batch_size start_from w))
  <= classifier_calls (snd (process (Return df) batch_size start_from w))
  /\ classifier_calls (snd (process (Return df) batch_size start_from w))
     <= scrape_calls (snd (process (Return df) batch_size start_from w))
  /\ scrape_calls (snd (process (Return df) batch_size start_from w))
     <= List.length df.
Proof.
  destruct (process_state (Return df) batch_size start_from w)
    as [->|(df' & [= <-] & ->)].
  { cbn. lia. }
  pose proof (slice_length df start_from
                (Z.min (start_from + batch_size) (Z.of_nat (List.length df))))
    as Hlen.
  revert Hlen. generalize (slice df start_from
                (Z.min (start_from + batch_size) (Z.of_nat (List.length df)))).
  intros batch Hlen.
  assert (H : forall companies st,
             let st' := snd (run companies st) in
             exists a c s,
               analyzer_calls st' = analyzer_calls st + a
               /\ classifier_calls st' = classifier_calls st + c
               /\ scrape_calls st' = scrape_calls st + s
               /\ a <= c /\ c <= s /\ s <= List.length companies).
  { induction companies as [|company rest IH]; intros st; cbv zeta.
    - exists 0, 0, 0. cbn. lia.
    - simpl.
      destruct (after_extends scrape classify analyze company st) as (_ & Ht & _).
      destruct (calls_per_company company st) as (Ha & Hc & Hs).
      assert (Hstep :
                analyzer_calls (after company st)
                = analyzer_calls st
                  + List.length (filter is_analyze (events company st))
                /\ classifier_calls (after company st)
                   = classifier_calls st
                     + List.length (filter is_classify (events company st))
                /\ scrape_calls (after company st)
                   = scrape_calls st
                     + List.length (filter is_scrape (events company st))).
      { unfold analyzer_calls, classifier_calls, scrape_calls.
        rewrite Ht, !filter_app, !length_app. auto. }
      destruct Hstep as (Ea & Ec & Es).
      unfold Fast.after in *.
      destruct (Fast.iteration scrape classify analyze company st)
        as [[u|e] st1]; cbn [snd] in *.
      + destruct (IH st1) as (a & c & s & Ha' & Hc' & Hs' & ? & ? & ?).
        do 3 eexists. rewrite Ha', Hc', Hs', Ea, Ec, Es.
        repeat match goal with |- _ /\ _ => split end;
          [rewrite <- Nat.add_assoc; reflexivity
          |rewrite <- Nat.add_assoc; reflexivity
          |rewrite <- Nat.add_assoc; reflexivity | lia | lia | lia].
      + do 3 eexists. rewrite Ea, Ec, Es.
        repeat match goal with |- _ /\ _ => split end;
          [reflexivity | reflexivity | reflexivity | lia | lia | lia]. }
  destruct (H batch (initial w)) as (a & c & s & -> & -> & -> & ? & ? & ?).
  cbn. lia.
Qed.

Definition no_website_ok (st : @State World) : Prop :=
  dq_no_website (summarize (results st))
  = List.length (filter is_no_website (decisions (trace st))).

Lemma no_website_ok_step (company : dict) (st : State) :
  no_website_ok st -> no_website_ok (after company st).
Proof.
  unfold no_website_ok. cbn [dq_no_website summarize]. intros H.
  destruct (after_extends scrape classify analyze company st) as (-> & -> & _).
  rewrite count_if_app, decisions_app, filter_app, length_app, H.
  f_equal. apply no_website_counted.
Qed.

(** X12: the "DQ - No website" figure of the summary is right: it
    equals the number of companies that left through the "no website"
    exit. *)
Theorem no_website_figure_is_exact (df : result (list dict))
        (batch_size start_from : Z) (w : World) :
  dq_no_website
    (summarize (results (snd (process df batch_size start_from w))))
  = List.length
      (filter is_no_website
              (decisions (trace (snd (process df batch_size start_from w))))).
Proof.
  change (no_website_ok (snd (process df batch_size start_from w))).
  apply process_preserves; [exact no_website_ok_step | reflexivity].
Qed.

Lemma import_of_shaped (rs : list dict) :
  Forall (fun r => map fst r = hubspot_columns) rs ->
  map (fun r => map (fun c => (c, get r c PNaN)) hubspot_columns) rs = rs.
Proof.
  intros Hok.
  transitivity (map (fun x : dict => x) rs); [|apply map_id].
  apply map_ext_Forall.
  revert Hok. apply Forall_impl. intros r0 Hr0.
  rewrite <- Hr0. apply select_own_keys. rewrite Hr0.
  apply hubspot_columns_distinct.
Qed.

Definition columns_ok (st : @State World) : Prop :=
  Forall (fun r => map fst r = hubspot_columns) (results st).

Lemma columns_ok_step (company : dict) (st : State) :
  columns_ok st -> columns_ok (after company st).
Proof.
  unfold columns_ok. intros H.
  destruct (after_extends scrape classify analyze company st) as (-> & _).
  apply Forall_app. split; [exact H|].
  apply rows_have_import_columns.
Qed.

(** X13: when a run reaches its end, every row of the full results has
    exactly the seventeen import columns, in the order of the import,
    so the HubSpot import file holds the same rows as the full results
    file. *)
Theorem import_equals_full_results (df : result (list dict))
        (batch_size start_from : Z) (w : World) (report : Report) (st : State) :
  process df batch_size start_from w = (Finished report, st) ->
  Forall (fun r => map fst r = hubspot_columns) (full_results report)
  /\ hubspot_import report = full_results report
  /\ full_results report = results st.
Proof.
  intros H.
  assert (Hok : columns_ok (snd (process df batch_size start_from w)))
    by (apply process_preserves; [exact columns_ok_step | constructor]).
  rewrite H in Hok. cbn [snd] in Hok.
  unfold process_companies_fast in H. destruct df as [df'|e]; [|discriminate H].
  destruct (Fast.run _ _ _ _ _) as [[u|e] st1]; [|discriminate H].
  destruct (results st1) as [|r rs] eqn:E; [discriminate H|].
  injection H as <- <-. cbn [full_results hubspot_import].
  unfold columns_ok in Hok. rewrite E in Hok.
  split; [exact Hok|]. split; [|now rewrite E].
  exact (import_of_shaped (r :: rs) Hok).
Qed.

End Runs.

(** X14: in the summary the approved figure counts every row whose
    Lifecycle Stage is not 'other' (also the rows kept for manual
    review); the manual-review figure and the number of team calls are
    that same count; it never exceeds the number of first calls, which
    never exceeds the total; and each of the three "DQ" figures read
    off the text of the rows, added to the approved figure, stays
    within the total. *)
Theorem summary_bounds (rs : list dict) :
  let s := summarize rs in
  manual_review s = approved s
  /\ team_ai_calls s = approved s
  /\ approved s <= total_ai_calls s <= total s
  /\ approved s + dq_broken s <= total s
  /\ approved s + dq_irrelevant s <= total s
  /\ approved s + dq_small_team s <= total s
  /\ approved s + count_if stage_is_other rs = total s.
Proof.
  cbv zeta. unfold summarize, count_if.
  cbn [manual_review team_ai_calls approved total_ai_calls total dq_broken
       dq_irrelevant dq_small_team].
  split; [reflexivity|]. split; [reflexivity|].
  induction rs as [|r rs IH]; [cbn; lia|].
  unfold list_sum in *. cbn [filter map fold_right List.length].
  destruct (stage_is_other r); cbn [negb andb orb];
    repeat match goal with
           | |- context [if ?b then _ else _] => destruct b
           end; cbn [List.length fold_right]; lia.
Qed.

End RunFacts.

(** ** Batches, and the loop with the repository's own collaborators *)

Module BatchFacts.

Import Py Fast PyFacts FastFacts RowFacts RunFacts.

(** [analyze_team_members] as [process_companies_fast] sees it. *)
Definition team_analyzer {World : Type}
           (invoke : string -> World -> result Gemini.TeamMemberCount * World)
           (data : Gemini.company_data) (w : World)
  : result Gemini.TeamMemberCount * World :=
  let '(r, _, w') := Gemini.analyze_team_members invoke data w in (r, w').

Section Batches.

Context {World : Type}.
Variable scrape : value -> World -> result Scraper.Pages * World.
Variable classify :
  Gemini.company_data -> World -> result Gemini.RelevanceAndContact * World.
Variable analyze :
  Gemini.company_data -> World -> result Gemini.TeamMemberCount * World.

Local Abbreviation process :=
  (Fast.process_companies_fast scrape classify analyze).

(** X15: with a scraper that returns, a start inside the file and a
    positive batch size, the run reaches its end and reports as many
    rows as the batch has companies: the batch size, or what is left
    of the file after the start. *)
Theorem full_batch_is_reported (df : list dict) (batch_size start_from : Z)
        (w : World) :
  always_returns scrape ->
  (0 <= start_from < Z.of_nat (List.length df))%Z -> (0 < batch_size)%Z ->
  exists report st,
    process (Return df) batch_size start_from w = (Finished report, st)
    /\ total (summary report)
       = Z.to_nat (Z.min batch_size (Z.of_nat (List.length df) - start_from))
    /\ List.length (full_results report) = total (summary report).
Proof.
  intros Hs Hstart Hb. unfold process_companies_fast.
  rewrite slice_window by lia. fold (initial w).
  set (batch := firstn (Z.to_nat batch_size) (skipn (Z.to_nat start_from) df)).
  assert (Hbatch : List.length batch
                   = Z.to_nat (Z.min batch_size
                                     (Z.of_nat (List.length df) - start_from)))
    by (unfold batch; rewrite length_firstn, length_skipn; lia).
  destruct (run_one_row_each scrape classify analyze batch (initial w) Hs)
    as (st' & rs & -> & Hres & Hlen).
  cbn [results initial app] in Hres. rewrite Hres.
  destruct rs as [|r rs]; [simpl in Hlen; lia|].
  do 2 eexists. split; [reflexivity|].
  cbn [summary total summarize full_results]. rewrite Hlen, Hbatch. auto.
Qed.

(** X16: when the start lies at or beyond the end of the file, or the
    batch size is 0, no company is processed, no collaborator is
    called, and the run ends with the [KeyError] of selecting the
    import columns from a frame without rows, before the summary. *)
Theorem empty_batch_crashes (df : list dict) (batch_size start_from : Z)
        (w : World) :
  (0 <= start_from)%Z -> (0 <= batch_size)%Z ->
  (Z.of_nat (List.length df) <= start_from)%Z \/ batch_size = 0%Z ->
  process (Return df) batch_size start_from w
  = (Crashed (Exception "KeyError"), initial w).
Proof.
  intros Hs Hb Hcase. unfold process_companies_fast.
  rewrite slice_window by lia.
  assert (E : firstn (Z.to_nat batch_size) (skipn (Z.to_nat start_from) df) = []).
  { destruct Hcase as [Hend| ->]; [|reflexivity].
    rewrite skipn_all2 by lia. apply firstn_nil. }
  rewrite E. reflexivity.
Qed.

End Batches.

Section Repository.

Context {World : Type}.
Variable scrape_single_page : value -> World -> option Scraper.Page * World.
Variable find_about_page : string -> value -> result (option string).
Variable find_team_page : string -> value -> result (option string).
Variable find_contact_page : string -> value -> result (option string).
Variable classify :
  Gemini.company_data -> World -> result Gemini.RelevanceAndContact * World.
Variable analyze :
  Gemini.company_data -> World -> result Gemini.TeamMemberCount * World.
Variable invoke : string -> World -> result Gemini.TeamMemberCount * World.

Local Abbreviation scrape :=
  (Scraper.scrape_company_pages scrape_single_page find_about_page
                                find_team_page find_contact_page).

(** C7: with the repository's [scrape_company_pages], for every
    company and whatever the page fetches, the link finders, the
    relevance classifier and the team analyzer do (returning,
    reporting an error, or raising an exception, that is, a subclass
    of [Exception] as the handlers name it): the iteration does not
    raise and appends exactly one row; a relevance call that raises
    and a team analysis that raises both end in manual review; an
    error reported by the scraper ends in "DQ: Scraping failed"; and
    a whole batch returns with one row per company. *)
Theorem one_row_per_company :
  (forall company st,
      exists r,
        Fast.iteration scrape classify analyze company st
        = (Return tt, Fast.after scrape classify analyze company st)
        /\ results (Fast.after scrape classify analyze company st)
           = (results st ++ [r])%list)
  /\ (forall company st pages w1 w2 e,
        truthy (get company "Website URL" (PStr "")) = true ->
        scrape (get company "Website URL" (PStr "")) (world st)
        = (Return pages, w1) ->
        truthy_opt (Scraper.error pages) = false ->
        classify (relevance_input (get company "Company name" (PStr "Unknown"))
                                  pages) w1
        = (Raise e, w2) ->
        Fast.verdict scrape classify analyze company st
        = [ManualReview ClassifierError])
  /\ (forall company st pages rel w1 w2 w3 e,
        truthy (get company "Website URL" (PStr "")) = true ->
        scrape (get company "Website URL" (PStr "")) (world st)
        = (Return pages, w1) ->
        truthy_opt (Scraper.error pages) = false ->
        classify (relevance_input (get company "Company name" (PStr "Unknown"))
                                  pages) w1
        = (Return rel, w2) ->
        (negb (Gemini.is_relevant rel)
         && (0.8 <? Gemini.confidence rel)%float)%bool = false ->
        (Scraper.present (Scraper.team_page pages)
         || Scraper.present (Scraper.about_page pages))%bool = true ->
        analyze (team_input pages) w2 = (Raise e, w3) ->
        Fast.verdict scrape classify analyze company st
        = [ManualReview AnalyzerError])
  /\ (forall company st pages w1,
        truthy (get company "Website URL" (PStr "")) = true ->
        scrape (get company "Website URL" (PStr "")) (world st)
        = (Return pages, w1) ->
        truthy_opt (Scraper.error pages) = true ->
        Fast.verdict scrape classify analyze company st
        = [Disqualified ScrapeFailed])
  /\ (forall companies st,
        exists st' rs,
          Fast.run scrape classify analyze companies st = (Return tt, st')
          /\ results st' = (results st ++ rs)%list
          /\ List.length rs = List.length companies).
Proof.
  pose proof (ScraperFacts.scrape_company_pages_returns
                scrape_single_page find_about_page find_team_page
                find_contact_page) as Hret.
  split; [|split; [|split; [|split]]].
  - intros company st. now apply iteration_one_row.
  - intros company st pages w1 w2 e Hu Hs He Hc.
    unfold Fast.verdict, Fast.events, Fast.after, Fast.iteration, evaluate.
    rewrite Hu. cbn [negb emit world].
    rewrite Hs. cbn [with_world world]. rewrite He, Hc. tidy. reflexivity.
  - intros company st pages rel w1 w2 w3 e Hu Hs He Hc Hr Ht Ha.
    unfold Fast.verdict, Fast.events, Fast.after, Fast.iteration, evaluate.
    rewrite Hu. cbn [negb emit world].
    rewrite Hs. cbn [with_world world]. rewrite He, Hc.
    cbn [with_world world emit]. rewrite Hr, Ht. cbn [negb emit world].
    rewrite Ha.
    destruct ((List.length (results st) + 1) mod 10 =? 0)%nat; tidy; reflexivity.
  - intros company st pages w1 Hu Hs He.
    unfold Fast.verdict, Fast.events, Fast.after, Fast.iteration, evaluate.
    rewrite Hu. cbn [negb emit world].
    rewrite Hs. cbn [with_world world]. rewrite He. tidy. reflexivity.
  - intros companies st. now apply run_one_row_each.
Qed.

(** X17: with the repository's [scrape_company_pages] no behaviour of
    the page fetches, the link finders, the classifier or the analyzer
    stops the loop: a batch always returns, with one row per company. *)
Theorem repository_scraper_never_stops_the_run (companies : list dict)
        (st : State) :
  exists st' rs,
    Fast.run scrape classify analyze companies st = (Return tt, st')
    /\ results st' = (results st ++ rs)%list
    /\ List.length rs = List.length companies.
Proof.
  apply run_one_row_each. apply ScraperFacts.scrape_company_pages_returns.
Qed.

(** X18: a homepage that cannot be fetched, or a link finder (about,
    team or contact) that raises on the homepage fetched, makes the
    company "DQ: Scraping failed" right after the scrape, whatever
    pages were read before: the classifier and the analyzer are not
    called. *)
Theorem scrape_failure_disqualifies (company : dict) (st : State) :
  let website_url := get company "Website URL" (PStr "") in
  truthy website_url = true ->
  (fst (scrape_single_page website_url (world st)) = None
   \/ exists hp e,
        fst (scrape_single_page website_url (world st)) = Some hp
        /\ (find_about_page (Scraper.soup hp) website_url = Raise e
            \/ find_team_page (Scraper.soup hp) website_url = Raise e
            \/ find_contact_page (Scraper.soup hp) website_url = Raise e)) ->
  Fast.events scrape classify analyze company st
  = [CallScrape website_url; Decided (Disqualified ScrapeFailed)].
Proof.
  intros website_url Hu Hfail.
  unfold Fast.events, Fast.after, Fast.iteration, evaluate.
  fold website_url. rewrite Hu. cbn [negb emit world].
  unfold Scraper.scrape_company_pages.
  destruct (scrape_single_page website_url (world st)) as [[hp|] w1];
    cbn [fst] in Hfail; [|cbn; tidy; reflexivity].
  destruct Hfail as [Hn|(hp' & e & [= <-] & He)]; [discriminate Hn|].
  destruct (find_about_page (Scraper.soup hp) website_url) as [about_url|e1];
    [|cbn; tidy; reflexivity].
  destruct (Scraper.follow scrape_single_page about_url _ _ w1) as [r1 w2].
  destruct (find_team_page (Scraper.soup hp) website_url) as [team_url|e2];
    [|cbn; tidy; reflexivity].
  destruct (Scraper.follow scrape_single_page team_url _ r1 w2) as [r2 w3].
  destruct (find_contact_page (Scraper.soup hp) website_url) as [contact_url|e3];
    [|cbn; tidy; reflexivity].
  destruct He as [He|[He|He]]; discriminate He.
Qed.

(** X19: in the loop run with the repository's [analyze_team_members],
    a company whose team and about pages were found but have no text
    is kept for manual review as a failed team parse: the analyzer
    answers 0 without asking the model. *)
Theorem empty_team_texts_end_in_manual_review (company : dict) (st : State)
        (data : Gemini.company_data) :
  In (CallAnalyze data)
     (Fast.events scrape classify (team_analyzer invoke) company st) ->
  truthy_opt (Gemini.team_text data) = false ->
  truthy_opt (Gemini.about_text data) = false ->
  Fast.verdict scrape classify (team_analyzer invoke) company st
  = [ManualReview TeamParseFailed]
  /\ In (TeamCount 0)
        (Fast.events scrape classify (team_analyzer invoke) company st).
Proof.
  revert data. paths; intros data Hin Ht Ha; member Hin.
  all: injection Hin as <-.
  all: match goal with
       | H : team_analyzer invoke _ _ = _ |- _ =>
           unfold team_analyzer, Gemini.analyze_team_members in H;
           rewrite Ht, Ha in H; cbn in H;
           first [discriminate H | injection H as <- <-]
       end.
  all: cbn in *; try discriminate.
  all: split; [reflexivity | auto 10].
Qed.

End Repository.

End BatchFacts.

(** ** The facts above on concrete runs *)

Module Examples.

Import Py Fast.

Lemma analyzer_asks_the_model_witness :
  exists content,
    Gemini.analyze_team_members Scenario.invoke_seven Scenario.blank_data 0
    = (Return (Scenario.headcount 7), [content], 1).
Proof.
  eexists.
  apply (ContentFacts.analyzer_asks_the_model
           Scenario.invoke_seven Scenario.blank_data 0).
  reflexivity.
Defined.

Lemma untouched_fields_witness :
  get (hd [] (rows Scenario.scrape Scenario.classify (Scenario.analyze 20)
                   Scenario.acme Scenario.start))
      "Record ID" PNone
  = PInt 1.
Proof.
  destruct (RowFacts.untouched_fields
              Scenario.scrape Scenario.classify (Scenario.analyze 20)
              Scenario.acme
              (hd [] (rows Scenario.scrape Scenario.classify (Scenario.analyze 20)
                           Scenario.acme Scenario.start))
              Scenario.start) as (H & _).
  - vm_compute. left. reflexivity.
  - rewrite (H "Record ID"); [reflexivity | simpl; auto].
Defined.

Lemma employees_default_witness :
  exists r,
    rows Scenario.scrape Scenario.classify (Scenario.analyze 20)
         Scenario.acme Scenario.start = [r]
    /\ get r "Number of Employees" PNone = PInt 11.
Proof.
  apply (RowFacts.employees_default
           Scenario.scrape Scenario.classify (Scenario.analyze 20)
           Scenario.acme Scenario.start (ManualReview NoTeamData)).
  - vm_compute. auto.
  - discriminate.
  - discriminate.
Defined.

Lemma contact_overlay_witness :
  exists r,
    rows Scenario.scrape Scenario.classify (Scenario.analyze 20)
         (Scenario.row "Nameless" "") Scenario.start = [r]
    /\ get r "Phone Number" PNone = PNone
    /\ get r "Street Address" PNone = PNone.
Proof.
  apply (RowFacts.contact_overlay
           Scenario.scrape Scenario.classify (Scenario.analyze 20)
           (Scenario.row "Nameless" "") Scenario.start (Disqualified NoWebsite)).
  vm_compute. auto.
Defined.

Lemma checkpoints_are_prefixes_witness :
  let reached :=
    snd (process_companies_fast Scenario.scrape Scenario.classify
                                (Scenario.analyze 20)
                                (Return Scenario.ten_with_team) 100%Z 0%Z 0) in
  10 mod 10 = 0 /\ List.length (results reached) = 10
  /\ results reached = firstn 10 (results reached).
Proof.
  cbv zeta.
  apply (RunFacts.checkpoints_are_prefixes
           Scenario.scrape Scenario.classify (Scenario.analyze 20)
           (Return Scenario.ten_with_team) 100%Z 0%Z 0 10).
  vm_compute. left. reflexivity.
Defined.

Lemma import_equals_full_results_witness :
  match fst (process_companies_fast Scenario.scrape Scenario.classify
                                    (Scenario.analyze 20)
                                    (Return Scenario.two_companies) 100%Z 0%Z 0)
  with
  | Finished report =>
      List.length (full_results report) = 2
      /\ hubspot_import report = full_results report
  | _ => False
  end.
Proof.
  destruct (process_companies_fast Scenario.scrape Scenario.classify
                                   (Scenario.analyze 20)
                                   (Return Scenario.two_companies) 100%Z 0%Z 0)
    as [[|report|e] st] eqn:E; cbn [fst].
  - vm_compute in E. discriminate E.
  - split.
    + vm_compute in E. injection E as <- _. reflexivity.
    + exact (proj1 (proj2 (RunFacts.import_equals_full_results
                             Scenario.scrape Scenario.classify (Scenario.analyze 20)
                             (Return Scenario.two_companies) 100%Z 0%Z 0
                             report st E))).
  - vm_compute in E. discriminate E.
Defined.

Lemma full_batch_is_reported_witness :
  exists report st,
    process_companies_fast Scenario.scrape Scenario.classify (Scenario.analyze 20)
                           (Return Scenario.two_companies) 100%Z 0%Z 0
    = (Finished report, st)
    /\ total (summary report) = 2
    /\ List.length (full_results report) = total (summary report).
Proof.
  apply (BatchFacts.full_batch_is_reported
           Scenario.scrape Scenario.classify (Scenario.analyze 20)
           Scenario.two_companies 100%Z 0%Z 0).
  - exact Runs.scenario_scraper_returns.
  - cbn. lia.
  - lia.
Defined.

Lemma empty_batch_crashes_witness :
  process_companies_fast Scenario.scrape Scenario.classify (Scenario.analyze 20)
                         (Return Scenario.two_companies) 100%Z 5%Z 0
  = (Crashed (Exception "KeyError"), RunFacts.initial 0).
Proof.
  apply (BatchFacts.empty_batch_crashes
           Scenario.scrape Scenario.classify (Scenario.analyze 20)
           Scenario.two_companies 100%Z 5%Z 0).
  - lia.
  - lia.
  - left. cbn. lia.
Defined.

Lemma scrape_failure_disqualifies_witness :
  events (Scraper.scrape_company_pages Scenario.fetch Scenario.no_link
                                       Scenario.no_link Scenario.no_link)
         Scenario.classify (Scenario.analyze 20)
         (Scenario.row "Down" "https://down.example") Scenario.start
  = [CallScrape (PStr "https://down.example");
     Decided (Disqualified ScrapeFailed)].
Proof.
  apply (BatchFacts.scrape_failure_disqualifies
           Scenario.fetch Scenario.no_link Scenario.no_link Scenario.no_link
           Scenario.classify (Scenario.analyze 20)
           (Scenario.row "Down" "https://down.example") Scenario.start).
  - reflexivity.
  - left. reflexivity.
Defined.

Lemma empty_team_texts_end_in_manual_review_witness :
  verdict (Scraper.scrape_company_pages Scenario.fetch_bare Scenario.no_link
                                        Scenario.team_link Scenario.no_link)
          Scenario.classify (BatchFacts.team_analyzer Scenario.invoke_seven)
          Scenario.acme Scenario.start
  = [ManualReview TeamParseFailed].
Proof.
  destruct (BatchFacts.empty_team_texts_end_in_manual_review
              Scenario.fetch_bare Scenario.no_link Scenario.team_link
              Scenario.no_link Scenario.classify Scenario.invoke_seven
              Scenario.acme Scenario.start
              {| Gemini.company_name := None; Gemini.homepage_text := None;
                 Gemini.about_text := Some ""; Gemini.team_text := Some "";
                 Gemini.contact_text := None |}) as (H & _).
  - vm_compute. auto 10.
  - reflexivity.
  - reflexivity.
  - exact H.
Defined.

Lemma classifier_failure_caught_witness :
  rows Scenario.scrape Scenario.classify (Scenario.analyze 20)
       (Scenario.row "Broken" "https://acme.example") Scenario.start
  = [base_result (Scenario.row "Broken" "https://acme.example")
                 (PStr "Broken") (PStr "https://acme.example")].
Proof.
  destruct (FastFacts.classifier_failure_caught
              Scenario.scrape Scenario.classify (Scenario.analyze 20)
              (Scenario.row "Broken" "https://acme.example") Scenario.start
              Scenario.home_only 1 2 (Exception "quota exceeded"))
    as (_ & H & _).
  - reflexivity.
  - reflexivity.
  - reflexivity.
  - reflexivity.
  - exact H.
Defined.

Lemma analyzer_failure_caught_witness :
  verdict Scenario.scrape Scenario.classify Scenario.analyze_raising
          Scenario.acme_with_team Scenario.start
  = [ManualReview AnalyzerError].
Proof.
  destruct (FastFacts.analyzer_failure_caught
              Scenario.scrape Scenario.classify Scenario.analyze_raising
              Scenario.acme_with_team Scenario.start
              Scenario.home_and_team (Scenario.signal true 0.9) 1 2 3
              (Exception "timeout"))
    as (_ & _ & H).
  - reflexivity.
  - reflexivity.
  - reflexivity.
  - reflexivity.
  - reflexivity.
  - reflexivity.
  - reflexivity.
  - exact H.
Defined.

Lemma manual_review_keeps_owner_witness :
  exists r,
    rows Scenario.scrape Scenario.classify (Scenario.analyze 20)
         (Scenario.owned_row "Acme" "https://acme.example" "Ellinor")
         Scenario.start = [r]
    /\ get r "Company owner" PNone = PStr "Ellinor".
Proof.
  apply (FastFacts.manual_review_keeps_owner
           Scenario.scrape Scenario.classify (Scenario.analyze 20)
           (Scenario.owned_row "Acme" "https://acme.example" "Ellinor")
           Scenario.start NoTeamData).
  vm_compute. auto.
Defined.

Lemma checkpoint_only_after_team_step_witness :
  snapshots Scenario.scrape Scenario.classify (Scenario.analyze 20)
            Scenario.acme_with_team Scenario.start
  = [].
Proof.
  apply (FastFacts.checkpoint_only_after_team_step
           Scenario.scrape Scenario.classify (Scenario.analyze 20)
           Scenario.acme_with_team Scenario.start Approved).
  vm_compute. auto.
Defined.

Lemma one_row_per_company_witness :
  exists st' rs,
    run (Scraper.scrape_company_pages Scenario.fetch Scenario.no_link
                                      Scenario.broken_finder Scenario.no_link)
        Scenario.classify Scenario.analyze_raising
        Scenario.two_companies Scenario.start = (Return tt, st')
    /\ results st' = rs /\ List.length rs = 2.
Proof.
  destruct (BatchFacts.one_row_per_company
              Scenario.fetch Scenario.no_link Scenario.broken_finder
              Scenario.no_link Scenario.classify Scenario.analyze_raising)
    as (_ & _ & _ & _ & H).
  destruct (H Scenario.two_companies Scenario.start) as (st' & rs & Hr & He & Hl).
  exists st', rs. split; [exact Hr|]. split; [exact He | exact Hl].
Defined.

End Examples.
